(** * Bond-Extractor: the extraction pipeline of [app.py]

    The script reads every sheet of an uploaded workbook, offers the names
    found in the "Name" columns, keeps the rows of the selected names that
    have positive "Units", fills an "ISIN" column from a lookup workbook and
    writes one formatted worksheet.

    The development follows the script top to bottom: Python scalars and
    the few library coercions the script calls, data frames, the collection
    of names, the lookup table, the row filter, the ISIN enrichment, the
    concatenation, the worksheet formatting and the script as a whole. *)

From Stdlib Require Import ZArith PrimFloat FloatOps SpecFloat FloatAxioms Ascii.
From stdpp Require Import base list gmap strings sorting pretty.

(** A decimal float literal denotes the nearest binary64, as in Python. *)
#[global] Set Warnings "-inexact-float".

(** * Python scalars *)

(** What a cell of a DataFrame or of a worksheet holds. Floats are IEEE
    binary64 (Python's [float]); a missing number is [VFloat nan]. A
    [Timestamp] is its number of nanoseconds since the epoch and [VNaT] is
    pandas' missing date. Integers are Python's: the int64 values pandas
    reads, and any other int a frame of objects holds. *)
Inductive value : Type :=
  | VNone
  | VStr (s : string)
  | VInt (z : Z)
  | VFloat (f : float)
  | VBool (b : bool)
  | VDate (t : Z)
  | VNaT.

(** [float(z)]: the integer rounded to the nearest float. *)
Definition Z2float (z : Z) : float :=
  SF2Prim (binary_normalize prec emax z 0%Z false).

(** The library functions the script calls on text and on numbers. The
    script fixes none of them, so the development is parametric in them:
    [repr_float] is [str] on a float, [str_timestamp] is [str] on a
    Timestamp, [parse_number] is [pd.to_numeric(errors='coerce')] on text
    (NaN when the text is no number). [parse_datetime col v] is what
    [pd.to_datetime(col, errors='coerce')] makes of the text or the number
    [v] of the column [col], [None] when it makes no date of it. The
    column is an argument because pandas coerces a column as a whole: it
    infers one format for the column from its first text and reads the
    column under that format, so that the date of a value depends on the
    column it stands in; an integer counts nanoseconds, and is no date
    when the count is outside the range of a Timestamp. *)
Class PyLib : Type := {
  repr_float : float → string;
  str_timestamp : Z → string;
  parse_number : string → float;
  parse_datetime : list value → value → option Z
}.

(** [pd.isna]: None, NaN and NaT. *)
Definition isna (v : value) : bool :=
  match v with
  | VNone | VNaT => true
  | VFloat f => is_nan f
  | _ => false
  end.

(** Python's truth value, as [if cell.value] reads it. *)
Definition truthy (v : value) : bool :=
  match v with
  | VNone => false
  | VStr s => negb (String.eqb s "")
  | VInt z => negb (z =? 0)%Z
  | VFloat f => negb (PrimFloat.eqb f 0)
  | VBool b => b
  | VDate _ | VNaT => true
  end.

(** [v is not None]. *)
Definition is_not_None (v : value) : bool :=
  match v with VNone => false | _ => true end.

(** [isinstance(v, (int, float))]; a bool is an int in Python. *)
Definition is_int_or_float (v : value) : bool :=
  match v with VInt _ | VFloat _ | VBool _ => true | _ => false end.

(** A Python number: an int (a bool is the int 0 or 1) or a float. *)
Inductive number : Type :=
  | NInt (z : Z)
  | NFloat (f : float).

Definition as_number (v : value) : option number :=
  match v with
  | VInt z => Some (NInt z)
  | VBool b => Some (NInt (if b then 1 else 0)%Z)
  | VFloat f => Some (NFloat f)
  | _ => None
  end.

Definition float_of_number (n : number) : float :=
  match n with NInt z => Z2float z | NFloat f => f end.

(** [==] on numbers: integers exactly, otherwise as floats (NaN equals
    nothing). *)
Definition number_eqb (a b : number) : bool :=
  match a, b with
  | NInt x, NInt y => (x =? y)%Z
  | _, _ => PrimFloat.eqb (float_of_number a) (float_of_number b)
  end.

(** [v > 1] on a number. Integers compare exactly. *)
Definition gt_one (v : value) : bool :=
  match v with
  | VInt z => (1 <? z)%Z
  | VFloat f => PrimFloat.ltb 1 f
  | _ => false
  end.

(** [z / d] on two ints, [d] positive: Python's true division. The result
    is the float nearest to the exact quotient, ties to even; when that is
    beyond the largest float Python raises [OverflowError], [None] here.
    The quotient and the place of the remainder are those of IEEE
    division on the integers as they are, so an integer that no float
    holds exactly is not rounded before it is divided. *)
Definition int_truediv (z d : Z) : option float :=
  match z with
  | Z0 => Some 0%float
  | _ =>
      match SFdiv prec emax (S754_finite (z <? 0)%Z (Z.to_pos (Z.abs z)) 0)
                            (S754_finite false (Z.to_pos d) 0) with
      | S754_infinity _ => None
      | q => Some (SF2Prim q)
      end
  end.
Arguments int_truediv : simpl never.

(** [v / 100]: true division on an int (a bool is the int 0 or 1), IEEE
    division on a float; [None] when Python raises, [OverflowError] on an
    int too large and [TypeError] on what is no number. *)
Definition div_100 (v : value) : option value :=
  match as_number v with
  | Some (NInt z) => VFloat <$> int_truediv z 100
  | Some (NFloat f) => Some (VFloat (PrimFloat.div f 100))
  | None => None
  end.

(** The element-wise [==] of a column against a scalar: text with text,
    numbers with numbers, dates with dates; None, NaN and NaT equal nothing,
    themselves included. *)
Definition py_eq (a b : value) : bool :=
  match a, b with
  | VStr s, VStr t => String.eqb s t
  | VDate s, VDate t => (s =? t)%Z
  | _, _ =>
      match as_number a, as_number b with
      | Some x, Some y => number_eqb x y
      | _, _ => false
      end
  end.

(** The dtype of a column of a sheet as [pd.read_excel] returns it is
    [datetime64] exactly when the column holds Timestamps and NaT only. *)
Definition is_datetime (v : value) : bool :=
  match v with VDate _ | VNaT => true | _ => false end.

Definition datetime64 (col : list value) : bool := forallb is_datetime col.

Section Coercions.
Context `{!PyLib}.

(** [str(v)], also what [astype(str)] gives element by element. *)
Definition str_of (v : value) : string :=
  match v with
  | VNone => "None"
  | VStr s => s
  | VInt z => pretty z
  | VFloat f => repr_float f
  | VBool b => if b then "True" else "False"
  | VDate t => str_timestamp t
  | VNaT => "NaT"
  end.

(** [pd.to_numeric(col, errors='coerce')] at the element [v] of the column
    [col]: what is no number becomes NaN. A column of dates is turned into
    the counts of its Timestamps, nanoseconds since the epoch, and the
    count of NaT is the least int64; in a column of mixed values a date is
    no number. *)
Definition to_numeric (col : list value) (v : value) : float :=
  match v with
  | VStr s => parse_number s
  | VDate t => if datetime64 col then Z2float t else nan
  | VNaT => if datetime64 col then Z2float (- 2 ^ 63) else nan
  | _ => from_option float_of_number nan (as_number v)
  end.

(** [pd.to_datetime(col, errors='coerce')] at the element [v] of the
    column [col]: a Timestamp stays, what is missing becomes NaT, and a
    text or a number becomes the date the library makes of it in this
    column, NaT when it makes none. *)
Definition to_datetime (col : list value) (v : value) : value :=
  match v with
  | VDate t => VDate t
  | VStr _ | VInt _ => from_option VDate VNaT (parse_datetime col v)
  | VFloat f => if is_nan f then VNaT else from_option VDate VNaT (parse_datetime col v)
  | VNone | VBool _ | VNaT => VNaT
  end.

End Coercions.

(** * Text

    Text is a sequence of characters with code points below 256; its order
    is the order of the code points, as Python compares [str]. *)

(** [needle in hay]. *)
Fixpoint contains (needle hay : string) : bool :=
  String.prefix needle hay ||
  match hay with
  | EmptyString => false
  | String _ rest => contains needle rest
  end.

(** [any(x in s for x in needles)]. *)
Definition contains_any (needles : list string) (s : string) : bool :=
  existsb (λ x, contains x s) needles.

Definition lower_char (a : Ascii.ascii) : Ascii.ascii :=
  let n := Ascii.N_of_ascii a in
  if ((65 <=? n) && (n <=? 90) || (192 <=? n) && (n <=? 222) && negb (n =? 215))%N
  then Ascii.ascii_of_N (n + 32)
  else a.

(** [s.lower()]. *)
Fixpoint lower (s : string) : string :=
  match s with
  | EmptyString => EmptyString
  | String a rest => String (lower_char a) (lower rest)
  end.

(** The characters [str.strip] removes. *)
Definition is_space (a : Ascii.ascii) : bool :=
  let n := Ascii.N_of_ascii a in
  ((9 <=? n) && (n <=? 13) || (28 <=? n) && (n <=? 32) || (n =? 133) || (n =? 160))%N.

(** [s.strip() == '']: nothing but white space. *)
Fixpoint blank (s : string) : bool :=
  match s with
  | EmptyString => true
  | String a rest => is_space a && blank rest
  end.

(** * Exceptions *)

Inductive exception : Type :=
  | KeyError (key : string)
  | ValueError (msg : string).

(** A computation that returns or raises. *)
Inductive result (A : Type) : Type :=
  | Ok (a : A)
  | Raise (e : exception).
Arguments Ok {A} a.
Arguments Raise {A} e.

#[export] Instance result_ret : MRet result := λ A a, Ok a.
#[export] Instance result_bind : MBind result := λ A B f m,
  match m with
  | Ok a => f a
  | Raise e => Raise e
  end.

(** Runs [f] on every element in order; the first exception stops it. *)
Fixpoint traverse {A B : Type} (f : A → result B) (l : list A) : result (list B) :=
  match l with
  | [] => Ok []
  | x :: rest => y ← f x; ys ← traverse f rest; Ok (y :: ys)
  end.

(** * Data frames *)

(** A frame: its column labels and its rows, each row holding one value per
    column. [pd.read_excel] makes the labels of one sheet distinct. *)
Record DataFrame : Type := {
  columns : list value;
  rows : list (list value)
}.

(** A label is the text [c]. *)
Definition label_is (c : string) (l : value) : bool :=
  match l with
  | VStr s => String.eqb s c
  | _ => false
  end.

(** [columns.get_loc(c)]: the position of the column labelled [c]. *)
Fixpoint get_loc (c : string) (cols : list value) : option nat :=
  match cols with
  | [] => None
  | l :: rest => if label_is c l then Some 0%nat else S <$> get_loc c rest
  end.

(** [c in df.columns]. *)
Definition has_column (c : string) (df : DataFrame) : bool :=
  bool_decide (is_Some (get_loc c (columns df))).

(** The value of a row at a position (NaN where the row has none). *)
Definition cell (r : list value) (i : nat) : value :=
  default (VFloat nan) (r !! i).

(** The position of a column the script indexes by label ([df[c]],
    [row[c]]): a missing label raises [KeyError]. *)
Definition loc (c : string) (cols : list value) : result nat :=
  match get_loc c cols with
  | Some i => Ok i
  | None => Raise (KeyError c)
  end.

(** [df[c]]: the values of a column, top to bottom. *)
Definition column (c : string) (df : DataFrame) : result (list value) :=
  i ← loc c (columns df); Ok ((λ r, cell r i) <$> rows df).

(** The values of the column at a position, top to bottom. *)
Definition column_at (df : DataFrame) (i : nat) : list value :=
  (λ r, cell r i) <$> rows df.

(** [df.empty]: no row or no column. *)
Definition empty (df : DataFrame) : bool :=
  match rows df, columns df with
  | [], _ | _, [] => true
  | _, _ => false
  end.

(** [df.insert(loc, c, v)]: a new column labelled [c] at position [loc],
    holding [v] in every row. A label the frame already has raises
    [ValueError]. *)
Definition insert (i : nat) (c : string) (v : value) (df : DataFrame) : result DataFrame :=
  if has_column c df
  then Raise (ValueError ("cannot insert " +:+ c +:+ ", already exists"))
  else Ok {| columns := take i (columns df) ++ VStr c :: drop i (columns df);
             rows := (λ r, take i r ++ v :: drop i r) <$> rows df |}.

(** [df[c] = f(df[c])] for a column the frame has, [f] working element by
    element. *)
Definition map_column (c : string) (f : value → value) (df : DataFrame) : DataFrame :=
  match get_loc c (columns df) with
  | Some i => {| columns := columns df; rows := alter f i <$> rows df |}
  | None => df
  end.

(** [df[c] = vals]: the column is overwritten where the frame has it and
    appended otherwise. *)
Definition set_column (c : string) (vals : list value) (df : DataFrame) : DataFrame :=
  match get_loc c (columns df) with
  | Some i =>
      {| columns := columns df;
         rows := zip_with (λ r v, <[i := v]> r) (rows df) vals |}
  | None =>
      {| columns := columns df ++ [VStr c];
         rows := zip_with (λ r v, r ++ [v]) (rows df) vals |}
  end.

(** [xls]: the frames [pd.read_excel(xls, sheet_name=sheet, usecols="A:J")]
    gives for the sheets of the workbook, in the order of [sheet_names]. *)
Abbreviation ExcelFile := (list DataFrame).

(** One line of the lookup workbook: its columns 0, 1, 5 and 7. *)
Record LookupRow : Type := {
  nbfc : value;
  isin : value;
  issue_date : value;
  maturity_date : value
}.

Section Pipeline.
Context `{!PyLib}.

(** ** Collecting the names (lines 19-23) *)

(** [df['Name'].dropna().astype(str).unique()]. *)
Definition sheet_names_of (df : DataFrame) : result (list string) :=
  col ← column "Name" df;
  Ok (remove_dups (str_of <$> filter (λ v, isna v = false) col)).

(** The loop over the sheets: [all_names.update(...)]. *)
Fixpoint collect_names (sheets : list DataFrame) (acc : gset string) : result (gset string) :=
  match sheets with
  | [] => Ok acc
  | df :: rest =>
      names ← sheet_names_of df;
      collect_names rest (acc ∪ list_to_set names)
  end.

(** [sorted(all_names)]. *)
Definition all_names (xls : ExcelFile) : result (list string) :=
  acc ← collect_names xls ∅;
  Ok (merge_sort String.le (elements acc)).

(** ** The lookup table (lines 27-39) *)

(** The two date columns pass through [pd.to_datetime(errors='coerce')],
    each as a whole. *)
Definition read_lookup (raw : list LookupRow) : list LookupRow :=
  (λ e, {| nbfc := nbfc e;
           isin := isin e;
           issue_date := to_datetime (issue_date <$> raw) (issue_date e);
           maturity_date := to_datetime (maturity_date <$> raw) (maturity_date e) |}) <$> raw.

(** The mask of [get_isin]: key, issue date and maturity date all equal. *)
Definition lookup_match (key d1 d2 : value) (e : LookupRow) : bool :=
  py_eq (nbfc e) key && py_eq (issue_date e) d1 && py_eq (maturity_date e) d2.

(** [match.iloc[0]['isin'] if not match.empty else ''] for a query. *)
Definition find_isin (lookup_df : list LookupRow) (key d1 d2 : value) : value :=
  match List.filter (lookup_match key d1 d2) lookup_df with
  | e :: _ => isin e
  | [] => VStr ""
  end.

(** [get_isin(row)] (lines 67-73): the row's fields are read by label. *)
Definition get_isin (lookup_df : list LookupRow) (cols : list value) (row : list value) : result value :=
  k ← loc "NBFC" cols;
  i ← loc "Issue Date" cols;
  m ← loc "Maturity Date" cols;
  Ok (find_isin lookup_df (cell row k) (cell row i) (cell row m)).

(** ** The row filter (lines 47-48) *)

(** The mask of one row, given the "Units" column and where "Name" and
    "Units" stand. *)
Definition keep_row (selected_names : list string) (units : list value) (i j : nat)
    (r : list value) : bool :=
  bool_decide (str_of (cell r i) ∈ selected_names) &&
  PrimFloat.ltb 0 (to_numeric units (cell r j)).

Definition row_filter (selected_names : list string) (df : DataFrame) : result DataFrame :=
  i ← loc "Name" (columns df);
  j ← loc "Units" (columns df);
  Ok {| columns := columns df;
        rows := List.filter (keep_row selected_names (column_at df j) i j) (rows df) |}.

(** ** Dropping empty and unnamed columns (lines 52-54) *)

Definition unnamed (col : value) : bool :=
  match col with
  | VStr s => blank s || String.prefix "Unnamed" s
  | _ => false
  end.

Definition cols_to_drop (df : DataFrame) : list value :=
  List.filter unnamed (columns df).

(** Keeps the elements of [l] whose flag in [mask] is set. *)
Fixpoint select {A : Type} (mask : list bool) (l : list A) : list A :=
  match mask, l with
  | b :: mask', x :: l' => if b then x :: select mask' l' else select mask' l'
  | _, _ => []
  end.

(** [df.drop(columns=labels)]: every column with one of the labels goes. *)
Definition drop_columns (labels : list value) (df : DataFrame) : DataFrame :=
  let mask := (λ l, negb (existsb (py_eq l) labels)) <$> columns df in
  {| columns := select mask (columns df); rows := select mask <$> rows df |}.

(** ** The ISIN column (lines 57-75) *)

(** Lines 57-59: an empty "ISIN" right after "NBFC". *)
Definition insert_isin (filtered : DataFrame) : result DataFrame :=
  match get_loc "NBFC" (columns filtered) with
  | Some i => insert (i + 1) "ISIN" (VStr "") filtered
  | None => Ok filtered
  end.

(** [df[c] = pd.to_datetime(df[c], errors='coerce')] (lines 64-65): the
    column is read, coerced as a whole and written back. *)
Definition to_datetime_column (c : string) (df : DataFrame) : DataFrame :=
  match get_loc c (columns df) with
  | Some i => map_column c (to_datetime (column_at df i)) df
  | None => df
  end.

(** Lines 63-75: with both date columns, they are coerced in place and
    the "ISIN" column is assigned the look-ups of the rows. *)
Definition fill_isin (lookup_df : list LookupRow) (filtered : DataFrame) : result DataFrame :=
  if has_column "Issue Date" filtered && has_column "Maturity Date" filtered then
    let dated := to_datetime_column "Maturity Date"
                   (to_datetime_column "Issue Date" filtered) in
    found ← traverse (get_isin lookup_df (columns dated)) (rows dated);
    Ok (set_column "ISIN" found dated)
  else Ok filtered.

Definition enrich (lookup_df : option (list LookupRow)) (filtered : DataFrame) : result DataFrame :=
  with_isin ← insert_isin filtered;
  match lookup_df with
  | Some lookup => fill_isin lookup with_isin
  | None => Ok with_isin
  end.

(** ** One sheet, all sheets (lines 44-77) *)

(** The body of the loop: what the sheet adds to [combined_rows]. *)
Definition process_sheet (selected_names : list string) (lookup_df : option (list LookupRow))
    (df : DataFrame) : result (list DataFrame) :=
  filtered ← row_filter selected_names df;
  if empty filtered then Ok []
  else
    enriched ← enrich lookup_df (drop_columns (cols_to_drop filtered) filtered);
    Ok [enriched].

Fixpoint combined_rows (selected_names : list string) (lookup_df : option (list LookupRow))
    (xls : ExcelFile) : result (list DataFrame) :=
  match xls with
  | [] => Ok []
  | df :: rest =>
      here ← process_sheet selected_names lookup_df df;
      after ← combined_rows selected_names lookup_df rest;
      Ok (here ++ after)
  end.

End Pipeline.

(** ** Concatenation (line 80) *)

(** Two labels are the same scalar. *)
Definition value_eqb (a b : value) : bool :=
  match a, b with
  | VNone, VNone | VNaT, VNaT => true
  | VStr s, VStr t => String.eqb s t
  | VInt x, VInt y | VDate x, VDate y => (x =? y)%Z
  | VFloat f, VFloat g => PrimFloat.Leibniz.eqb f g
  | VBool x, VBool y => Bool.eqb x y
  | _, _ => false
  end.

Fixpoint label_index (l : value) (cols : list value) : option nat :=
  match cols with
  | [] => None
  | c :: rest => if value_eqb l c then Some 0%nat else S <$> label_index l rest
  end.

(** The labels of all frames, each once, in the order they first appear. *)
Definition union_columns (dfs : list DataFrame) : list value :=
  foldl (λ acc df,
           foldl (λ acc c, if existsb (value_eqb c) acc then acc else acc ++ [c])
                 acc (columns df))
        [] dfs.

(** The rows of a frame laid out on [cols]; a column the frame lacks is
    NaN. *)
Definition reindex (cols : list value) (df : DataFrame) : list (list value) :=
  (λ r, (λ c, match label_index c (columns df) with
              | Some i => cell r i
              | None => VFloat nan
              end) <$> cols) <$> rows df.

(** [pd.concat(dfs, ignore_index=True)]: the rows of the frames one after
    the other, on the union of their columns. *)
Definition pd_concat (dfs : list DataFrame) : DataFrame :=
  {| columns := union_columns dfs;
     rows := dfs ≫= reindex (union_columns dfs) |}.

(** * The worksheet (lines 83-163) *)

(** The named styles of the script; [Normal] is the style of a cell no
    style was assigned to. *)
Inductive NamedStyle : Type :=
  | Normal
  | percentage_style
  | comma_style
  | date_style
  | month_year_style.

(** The number format a style carries. A cell left at [Normal] shows the
    library's default format, written "General" here. *)
Definition number_format (s : NamedStyle) : string :=
  match s with
  | Normal => "General"
  | percentage_style => "0.00%"
  | comma_style => "#,##0"
  | date_style => "DD-MMM-YY"
  | month_year_style => "MMM-YY"
  end.

Record Cell : Type := {
  cell_value : value;
  style : NamedStyle
}.

(** The rows of the sheet, the header row first. *)
Abbreviation Worksheet := (list (list Cell)).

Record Workbook : Type := {
  title : string;
  active : Worksheet;
  column_width : list nat
}.

(** [cell.style = s]. *)
Definition set_style (s : NamedStyle) (c : Cell) : Cell :=
  {| cell_value := cell_value c; style := s |}.

(** Lines 118-123: a number above 1 is divided by 100, then the cell gets
    the percentage style; when the division raises, the [except] clause
    passes and the cell keeps its value and its style. *)
Definition percent_cell (c : Cell) : Cell :=
  let divided :=
    if is_int_or_float (cell_value c) && gt_one (cell_value c)
    then div_100 (cell_value c)
    else Some (cell_value c) in
  match divided with
  | Some v => {| cell_value := v; style := percentage_style |}
  | None => c
  end.

(** [for row in range(2, ws.max_row + 1)] over the cells of one column
    (counted from 0 here): [f] on every data cell that is not None. *)
Definition on_data_cells (col_idx : nat) (f : Cell → Cell) (ws : Worksheet) : Worksheet :=
  match ws with
  | [] => []
  | header :: data =>
      header :: (alter (λ c, if is_not_None (cell_value c) then f c else c) col_idx <$> data)
  end.

(** The longest stringified value of a column as the script measures it
    (lines 154-159): cells with a false truth value are passed over. *)
Definition max_length_step `{!PyLib} (max_length : nat) (c : Cell) : nat :=
  if truthy (cell_value c) && (max_length <? String.length (str_of (cell_value c)))%nat
  then String.length (str_of (cell_value c))
  else max_length.

Definition max_length `{!PyLib} (column : list Cell) : nat :=
  foldl max_length_step 0%nat column.

Definition adjusted_width `{!PyLib} (column : list Cell) : nat :=
  (max_length column + 2) `min` 50.

(** [ws.max_column]. *)
Definition max_column (ws : Worksheet) : nat :=
  foldr (λ r m, length r `max` m) 0%nat ws.

(** [ws.columns]: the cells of each column, top to bottom. *)
Definition ws_columns (ws : Worksheet) : list (list Cell) :=
  (λ j, omap (λ r : list Cell, r !! j) ws) <$> seq 0 (max_column ws).

(** [ws.cell(row, column)], both counted from 0. *)
Definition ws_cell (ws : Worksheet) (row col : nat) : option Cell :=
  r ← ws !! row; r !! col.

Section Render.
Context `{!PyLib}.

(** Lines 89-90: the header row, then the rows of the frame. *)
Definition append_rows (final_df : DataFrame) : Worksheet :=
  map (map (λ v, {| cell_value := v; style := Normal |})) (columns final_df :: rows final_df).

(** Lines 114-150: the rule of one column, chosen by its name. *)
Definition format_column (col_idx : nat) (col_name : value) (ws : Worksheet) : Worksheet :=
  let name := str_of col_name in
  if contains "Interest" name then
    on_data_cells col_idx percent_cell ws
  else if contains "Amount" name then
    on_data_cells col_idx (set_style comma_style) ws
  else if contains "Date" name && negb (contains_any ["issue"; "maturity"] (lower name)) then
    on_data_cells col_idx (set_style date_style) ws
  else if contains_any ["issue date"; "maturity date"; "issue"; "maturity"] (lower name) then
    on_data_cells col_idx (set_style month_year_style) ws
  else ws.

(** Line 111: the loop over the columns, left to right. *)
Fixpoint format_columns (col_idx : nat) (names : list value) (ws : Worksheet) : Worksheet :=
  match names with
  | [] => ws
  | col_name :: rest => format_columns (S col_idx) rest (format_column col_idx col_name ws)
  end.

(** Lines 153-163: the widths, measured once every column is formatted. *)
Definition auto_widths (ws : Worksheet) : list nat :=
  adjusted_width <$> ws_columns ws.

Definition render (final_df : DataFrame) : Workbook :=
  let ws := format_columns 0 (columns final_df) (append_rows final_df) in
  {| title := "Extracted"; active := ws; column_width := auto_widths ws |}.

(** * The script *)

(** What the page shows below the widgets: nothing, the download button
    with the workbook, or the notice. *)
Inductive outcome : Type :=
  | Nothing
  | Download (file_name : string) (data : Workbook)
  | Info (msg : string).

(** One run of the script on the uploaded workbook, the uploaded lookup
    lines and the names picked in the multiselect. An exception ends the
    run. *)
Definition app (uploaded_file : option ExcelFile) (lookup_file : option (list LookupRow))
    (selected_names : list string) : result outcome :=
  match uploaded_file with
  | None => Ok Nothing
  | Some xls =>
      options ← all_names xls;
      let lookup_df := read_lookup <$> lookup_file in
      match selected_names with
      | [] => Ok Nothing
      | _ :: _ =>
          combined ← combined_rows selected_names lookup_df xls;
          match combined with
          | [] => Ok (Info "No matching rows found with positive Units.")
          | _ :: _ =>
              Ok (Download "extracted_rows_with_isin.xlsx" (render (pd_concat combined)))
          end
      end
  end.

End Render.

(** * A small library instance

    Used to run the model on the sample inputs below. It reads and prints
    the plain cases as Python and pandas do: decimal integers as numbers,
    [YYYY-MM-DD] as a date, whole floats with a trailing [.0], timestamps
    of whole seconds as [YYYY-MM-DD HH:MM:SS], a number as a count of
    nanoseconds. It takes any other text for no number and no date, it
    infers no other format for a column, and it does not print other
    floats faithfully: the samples hold none where that matters. The
    theorems hold for every instance. *)
Module Demo.

Definition digit (a : Ascii.ascii) : option Z :=
  let n := Ascii.N_of_ascii a in
  if ((48 <=? n) && (n <=? 57))%N then Some (Z.of_N n - 48)%Z else None.

Fixpoint digits (acc : Z) (s : string) : option Z :=
  match s with
  | EmptyString => Some acc
  | String a rest => d ← digit a; digits (10 * acc + d)%Z rest
  end.

(** An unsigned decimal numeral, at least one digit. *)
Definition numeral (s : string) : option Z :=
  match s with
  | EmptyString => None
  | _ => digits 0 s
  end.

Definition integer (s : string) : option Z :=
  match s with
  | String "-"%char rest => Z.opp <$> numeral rest
  | _ => numeral s
  end.

(** Days from 1970-01-01 to a date of the Gregorian calendar. *)
Definition days_from_civil (y m d : Z) : Z :=
  let y' := (if m <=? 2 then y - 1 else y)%Z in
  let era := (y' / 400)%Z in
  let yoe := (y' - era * 400)%Z in
  let doy := ((153 * (if m >? 2 then m - 3 else m + 9) + 2) / 5 + d - 1)%Z in
  let doe := (yoe * 365 + yoe / 4 - yoe / 100 + doy)%Z in
  (era * 146097 + doe - 719468)%Z.

Definition days_in_month (y m : Z) : Z :=
  (days_from_civil (if m =? 12 then y + 1 else y) (if m =? 12 then 1 else m + 1) 1
   - days_from_civil y m 1)%Z.

Definition ns_per_day : Z := 86400000000000.

Definition iso_date (s : string) : option Z :=
  match s with
  | String y1 (String y2 (String y3 (String y4 (String "-"%char
      (String m1 (String m2 (String "-"%char (String d1 (String d2 EmptyString))))))))) =>
      y ← digits 0 (String y1 (String y2 (String y3 (String y4 EmptyString))));
      m ← digits 0 (String m1 (String m2 EmptyString));
      d ← digits 0 (String d1 (String d2 EmptyString));
      if ((1 <=? m) && (m <=? 12) && (1 <=? d) && (d <=? days_in_month y m) && (1678 <=? y) && (y <=? 2261))%Z
      then Some (days_from_civil y m d * ns_per_day)%Z
      else None
  | _ => None
  end.

(** The date of a day count, as (year, month, day). *)
Definition civil_from_days (z : Z) : Z * Z * Z :=
  let z' := (z + 719468)%Z in
  let era := (z' / 146097)%Z in
  let doe := (z' - era * 146097)%Z in
  let yoe := ((doe - doe / 1460 + doe / 36524 - doe / 146096) / 365)%Z in
  let doy := (doe - (365 * yoe + yoe / 4 - yoe / 100))%Z in
  let mp := ((5 * doy + 2) / 153)%Z in
  let d := (doy - (153 * mp + 2) / 5 + 1)%Z in
  let m := (if mp <? 10 then mp + 3 else mp - 9)%Z in
  ((if m <=? 2 then yoe + era * 400 + 1 else yoe + era * 400)%Z, m, d).

Definition two_digits (z : Z) : string :=
  if (z <? 10)%Z then "0" +:+ pretty z else pretty z.

Definition four_digits (z : Z) : string :=
  (if (z <? 1000)%Z then "0" else "") +:+ (if (z <? 100)%Z then "0" else "") +:+ two_digits z.

Definition timestamp_text (t : Z) : string :=
  let '(y, m, d) := civil_from_days (t / ns_per_day) in
  let secs := ((t mod ns_per_day) / 1000000000)%Z in
  four_digits y +:+ "-" +:+ two_digits m +:+ "-" +:+ two_digits d +:+ " " +:+
  two_digits (secs / 3600) +:+ ":" +:+ two_digits (secs / 60 mod 60) +:+ ":" +:+
  two_digits (secs mod 60).

(** The integer part of a finite float. *)
Definition trunc (f : float) : option Z :=
  match Prim2SF f with
  | S754_zero _ => Some 0%Z
  | S754_finite s m e => Some (cond_Zopp s (Z.shiftl (Z.pos m) e))
  | _ => None
  end.

Definition float_text (f : float) : string :=
  match trunc f with
  | Some z => if PrimFloat.eqb (Z2float z) f then pretty z +:+ ".0" else "nan"
  | None =>
      if PrimFloat.eqb f infinity then "inf"
      else if PrimFloat.eqb f neg_infinity then "-inf"
      else "nan"
  end.

(** A count of nanoseconds a Timestamp holds. *)
Definition in_range (z : Z) : option Z :=
  if ((- 2 ^ 63 <? z) && (z <? 2 ^ 63))%Z then Some z else None.

Definition datetime_of (col : list value) (v : value) : option Z :=
  match v with
  | VStr s => iso_date s
  | VInt z => in_range z
  | VFloat f => trunc f ≫= in_range
  | _ => None
  end.

Definition lib : PyLib := {|
  repr_float := float_text;
  str_timestamp := timestamp_text;
  parse_number := λ s, from_option Z2float nan (integer s);
  parse_datetime := datetime_of
|}.

End Demo.

(** * Sample inputs *)
Module Sample.

(** 2020-01-01 and 2021-01-01 as Timestamps. *)
Definition jan_2020 : value := VDate 1577836800000000000.
Definition jan_2021 : value := VDate 1609459200000000000.

(** A sheet: one row to extract, one with negative units, one whose units
    are no number. *)
Definition bonds : DataFrame := {|
  columns := [VStr "Name"; VStr "Units"; VStr "NBFC"; VStr "Issue Date";
              VStr "Maturity Date"; VStr "Interest Rate"];
  rows := [[VStr "A"; VInt 10; VStr "X"; VStr "2020-01-01"; VStr "2021-01-01"; VInt 5];
           [VStr "B"; VInt (-5); VStr "Y"; VStr "2020-01-01"; VStr "TBD"; VFloat 0.5];
           [VStr "A"; VStr "pending"; VStr "X"; jan_2020; jan_2021; VFloat nan]]
|}.

(** The lines of a lookup workbook, as read. *)
Definition lookup : list LookupRow :=
  [{| nbfc := VStr "X"; isin := VStr "INE001A07AB1";
      issue_date := VStr "2020-01-01"; maturity_date := VStr "2021-01-01" |};
   {| nbfc := VStr "Y"; isin := VStr "INE002A07CD2";
      issue_date := VStr "2020-01-01"; maturity_date := VStr "TBD" |}].

(** Two lookup lines with the same key and dates. *)
Definition first_entry : LookupRow :=
  {| nbfc := VStr "X"; isin := VStr "INE001A07AB1";
     issue_date := jan_2020; maturity_date := jan_2021 |}.
Definition second_entry : LookupRow :=
  {| nbfc := VStr "X"; isin := VStr "INE009Z07ZZ9";
     issue_date := jan_2020; maturity_date := jan_2021 |}.

(** A filtered frame whose dates are text. *)
Definition text_dates : DataFrame := {|
  columns := [VStr "NBFC"; VStr "Issue Date"; VStr "Maturity Date"];
  rows := [[VStr "X"; VStr "2020-01-01"; VStr "TBD"]]
|}.

(** A sheet that already has an "ISIN" column. *)
Definition with_isin : DataFrame := {|
  columns := [VStr "Name"; VStr "Units"; VStr "NBFC"; VStr "ISIN"];
  rows := [[VStr "A"; VInt 10; VStr "X"; VStr "INE001A07AB1"]]
|}.

(** A frame whose date column is named in lower case. *)
Definition payments : DataFrame := {|
  columns := [VStr "Name"; VStr "Payment date"];
  rows := [[VStr "A"; jan_2020]]
|}.

(** A frame with a column of booleans. *)
Definition flags : DataFrame := {|
  columns := [VStr "Name"; VStr "OK"];
  rows := [[VStr "A"; VBool false]]
|}.

End Sample.

(** * Further sample inputs *)
Module Cases.

(** A sheet with an unnamed column, an amount and remarks. *)
Definition holdings : DataFrame := {|
  columns := [VStr "Name"; VStr "Units"; VStr "Unnamed: 2"; VStr "Amount Invested";
              VStr "Remarks"];
  rows := [[VStr "A"; VInt 3; VFloat nan; VInt 250000; VNone];
           [VStr "B"; VInt 0; VFloat nan; VInt 1000; VStr "closed"]]
|}.

(** A filtered frame with both date columns and no "NBFC" column. *)
Definition no_nbfc : DataFrame := {|
  columns := [VStr "Name"; VStr "Units"; VStr "Issue Date"; VStr "Maturity Date"];
  rows := [[VStr "A"; VInt 10; VStr "2020-01-01"; VStr "2021-01-01"]]
|}.

(** What the sample sheet gives once A and B are selected. *)
Definition extracted : DataFrame := {|
  columns := [VStr "Name"; VStr "Units"; VStr "NBFC"; VStr "ISIN";
              VStr "Issue Date"; VStr "Maturity Date"; VStr "Interest Rate"];
  rows := [[VStr "A"; VInt 10; VStr "X"; VStr "INE001A07AB1";
            Sample.jan_2020; Sample.jan_2021; VInt 5]]
|}.



(** Sheets whose "Units" column holds dates only, and dates beside a
    number. *)
Definition dated_units : DataFrame := {|
  columns := [VStr "Name"; VStr "Units"];
  rows := [[VStr "A"; Sample.jan_2020]; [VStr "A"; VDate (-1)]; [VStr "A"; VNaT]]
|}.

Definition mixed_units : DataFrame := {|
  columns := [VStr "Name"; VStr "Units"];
  rows := [[VStr "A"; Sample.jan_2020]; [VStr "A"; VInt 3]]
|}.


End Cases.

(** * Notions used in the statements *)

(** A frame is rectangular: every row has one value per column. *)
Definition well_formed (df : DataFrame) : Prop :=
  Forall (λ r, length r = length (columns df)) (rows df).

Section Notions.
Context `{!PyLib}.

(** The text of the non-missing "Name" values of a workbook. *)
Definition name_of (xls : ExcelFile) (s : string) : Prop :=
  ∃ df col v, df ∈ xls ∧ column "Name" df = Ok col ∧ v ∈ col ∧
              isna v = false ∧ str_of v = s.

(** The entry is the one a query asks for: a text key and two dates, none
    missing, all equal to the query's. *)
Definition answers (k : string) (d1 d2 : value) (e : LookupRow) : Prop :=
  nbfc e = VStr k ∧ issue_date e = d1 ∧ maturity_date e = d2 ∧
  d1 ≠ VNaT ∧ d2 ≠ VNaT.

(** A value [pd.to_datetime] returns: a date or NaT. *)
Definition datetime (v : value) : Prop := v = VNaT ∨ ∃ t, v = VDate t.

(** The columns after the enrichment: those before it, or those with one
    "ISIN" column more. *)
Definition added_isin (before after : list value) : Prop :=
  after = before ∨
  ∃ p, after !! p = Some (VStr "ISIN") ∧ delete p after = before.

(** Where column [i] of the filtered frame stands once "ISIN" is inserted
    after "NBFC". *)
Definition moved (filtered : DataFrame) (i : nat) : nat :=
  match get_loc "NBFC" (columns filtered) with
  | Some k => if decide (i < S k)%nat then i else S i
  | None => i
  end.

(** Column [i] of the filtered frame is one of the two date columns the
    enrichment coerces: a lookup table is given and both are there. *)
Definition coerces (lookup_df : option (list LookupRow)) (filtered : DataFrame) (i : nat) : bool :=
  match lookup_df with
  | Some _ =>
      has_column "Issue Date" filtered && has_column "Maturity Date" filtered &&
      bool_decide (get_loc "Issue Date" (columns filtered) = Some i ∨
                   get_loc "Maturity Date" (columns filtered) = Some i)
  | None => false
  end.

(** What the rule of a column does to a data cell that is not None. *)
Definition column_rule (col_name : value) : Cell → Cell :=
  let name := str_of col_name in
  if contains "Interest" name then percent_cell
  else if contains "Amount" name then set_style comma_style
  else if contains "Date" name && negb (contains_any ["issue"; "maturity"] (lower name)) then
    set_style date_style
  else if contains_any ["issue date"; "maturity date"; "issue"; "maturity"] (lower name) then
    set_style month_year_style
  else id.

Definition format_cell (col_name : value) (c : Cell) : Cell :=
  if is_not_None (cell_value c) then column_rule col_name c else c.

(** One row of data under the loop over the columns. *)
Fixpoint format_row (col_idx : nat) (names : list value) (r : list Cell) : list Cell :=
  match names with
  | [] => r
  | col_name :: rest => format_row (S col_idx) rest (alter (format_cell col_name) col_idx r)
  end.

(** [L] is the greatest length of the text of a cell of the column whose
    value is true in Python's sense, and 0 when there is none. *)
Definition longest_truthy (L : nat) (column : list Cell) : Prop :=
  (∀ c, c ∈ column → truthy (cell_value c) = true →
        (String.length (str_of (cell_value c)) ≤ L)%nat) ∧
  (L = 0%nat ∨
   ∃ c, c ∈ column ∧ truthy (cell_value c) = true ∧
        String.length (str_of (cell_value c)) = L).

(** The longest text of a column as the specification words it: every
    cell counts, whatever its truth value. The script computes
    [max_length]. *)
Definition longest_stringified (column : list Cell) : nat :=
  foldr (λ c m, String.length (str_of (cell_value c)) `max` m)%nat 0%nat column.

End Notions.

(** One step of the union of the labels in [pd.concat]: a label that is
    not there yet goes to the end. *)
Definition add_label (acc : list value) (c : value) : list value :=
  if existsb (value_eqb c) acc then acc else acc ++ [c].

(** * Properties *)

(** ** Exceptions *)

Lemma bind_Ok {A B : Type} (m : result A) (f : A → result B) (b : B) :
  m ≫= f = Ok b ↔ ∃ a, m = Ok a ∧ f a = Ok b.
Proof.
  destruct m as [a|e]; unfold mbind, result_bind; simpl.
  - split; [intros ?; by exists a | by intros (a' & [= <-] & ?)].
  - split; [done | by intros (? & ? & ?)].
Qed.

(** Splits a hypothesis saying that a chain of binds returned. *)
Ltac inv_Ok H :=
  repeat
    match type of H with
    | _ ≫= _ = Ok _ =>
        let a := fresh "a" in
        let Ha := fresh "Ha" in
        apply bind_Ok in H as (a & Ha & H)
    | Ok _ = Ok _ => injection H as H
    end.

(** ** Floats *)




(** ** Text *)

Lemma prefix_app (p s : string) :
  String.prefix p s = true ↔ ∃ rest, s = p +:+ rest.
Proof.
  revert s. induction p as [|a p IH]; intros [|b s]; simpl.
  - split; [intros _; by exists "" | done].
  - split; [intros _; by exists (String b s) | done].
  - split; [done | by intros (? & ?)].
  -
    destruct (Ascii.ascii_dec a b) as [->|Hne].
    + rewrite IH. split; intros (rest & Hr); exists rest.
      * by rewrite Hr.
      * by injection Hr.
    + split; [done | intros (? & [= ? ?]); congruence].
Qed.

(** [contains] is Python's [in]: the needle stands somewhere in the text. *)
Lemma contains_spec (needle hay : string) :
  contains needle hay = true ↔ ∃ before after, hay = before +:+ needle +:+ after.
Proof.
  induction hay as [|a hay IH].
  - change (contains needle "") with (String.prefix needle "" || false).
    rewrite orb_true_iff, prefix_app. split.
    + intros [(rest & Hr)|]; [|done]. by exists "", rest.
    + intros (before & after & Hh). left.
      destruct before; [by exists after|done].
  - change (contains needle (String a hay))
      with (String.prefix needle (String a hay) || contains needle hay).
    rewrite orb_true_iff, prefix_app, IH. split.
    + intros [(rest & Hr)|(before & after & Hh)].
      * by exists "", rest.
      * exists (String a before), after. simpl. by rewrite Hh.
    + intros (before & after & Hh). destruct before as [|b before].
      * left. by exists after.
      * right. injection Hh as -> Hh. by exists before, after.
Qed.

(** ** Data frames *)

Lemma get_loc_Some c cols i :
  get_loc c cols = Some i →
  ∃ l, cols !! i = Some l ∧ label_is c l = true ∧
       ∀ i' l', (i' < i)%nat → cols !! i' = Some l' → label_is c l' = false.
Proof.
  revert i. induction cols as [|l cols IH]; intros i; simpl; [done|].
  destruct (label_is c l) eqn:Hl.
  - intros [= <-]. exists l. split_and!; [done..|lia].
  - destruct (get_loc c cols) as [k|] eqn:Hk; simpl; [|done].
    intros [= <-]. destruct (IH k eq_refl) as (l0 & ? & ? & Hfirst).
    exists l0. split_and!; [done..|].
    intros [|i'] l' ?; simpl; [by intros [= <-]|]. apply Hfirst. lia.
Qed.

Lemma get_loc_None c cols :
  get_loc c cols = None ↔ ∀ l, l ∈ cols → label_is c l = false.
Proof.
  induction cols as [|l cols IH]; simpl.
  - split; [by intros _ ? ?%elem_of_nil | done].
  - destruct (label_is c l) eqn:Hl.
    + split; [done|]. intros Hall.
      specialize (Hall l (list_elem_of_here _ _)). congruence.
    + destruct (get_loc c cols) as [k|]; simpl.
      * split; [done|]. intros Hall.
        assert (Some k = None) as [=]. apply IH.
        intros l' ?. apply Hall, elem_of_cons. by right.
      * split; [|done]. intros _ l' [->|?]%elem_of_cons; [done|]. by apply IH.
Qed.

Lemma label_is_VStr c l : label_is c l = true ↔ l = VStr c.
Proof.
  destruct l; simpl; try (split; [done | by intros [=]]).
  rewrite String.eqb_eq. split; [by intros -> | by intros [= ->]].
Qed.

Lemma has_column_true c df :
  has_column c df = true ↔ ∃ i, get_loc c (columns df) = Some i.
Proof. unfold has_column. by rewrite bool_decide_eq_true. Qed.

Lemma has_column_false c df :
  has_column c df = false ↔ get_loc c (columns df) = None.
Proof.
  unfold has_column. rewrite bool_decide_eq_false, <- eq_None_not_Some. done.
Qed.


Lemma elem_of_filter {A : Type} (p : A → bool) (l : list A) (x : A) :
  x ∈ List.filter p l ↔ x ∈ l ∧ p x = true.
Proof. by rewrite !list_elem_of_In, filter_In. Qed.

Section Names.
Context `{!PyLib}.

Lemma column_Ok c df i :
  get_loc c (columns df) = Some i →
  column c df = Ok ((λ r, cell r i) <$> rows df).
Proof. intros Hi. unfold column, loc. by rewrite Hi. Qed.

Lemma column_Raise c df :
  get_loc c (columns df) = None → column c df = Raise (KeyError c).
Proof. intros Hi. unfold column, loc. by rewrite Hi. Qed.

Lemma sheet_names_of_Ok df col :
  column "Name" df = Ok col →
  ∃ names, sheet_names_of df = Ok names ∧
    ∀ s, s ∈ names ↔ ∃ v, v ∈ col ∧ isna v = false ∧ str_of v = s.
Proof.
  intros Hcol. unfold sheet_names_of. rewrite Hcol. eexists. split; [done|].
  intros s. rewrite elem_of_remove_dups, list_elem_of_fmap.
  split.
  - intros (v & -> & [? ?]%list_elem_of_filter). by exists v.
  - intros (v & ? & ? & <-). exists v. split; [done|]. by apply list_elem_of_filter.
Qed.

Lemma collect_names_Ok xls acc :
  Forall (λ df, has_column "Name" df = true) xls →
  ∃ found, collect_names xls acc = Ok found ∧
    ∀ s, s ∈ found ↔ s ∈ acc ∨ name_of xls s.
Proof.
  intros Hall. revert acc. induction Hall as [|df xls Hdf _ IH]; intros acc; simpl.
  - exists acc. split; [done|]. intros s. split; [by left|].
    intros [?|(df & ? & ? & []%elem_of_nil & _)]; done.
  - apply has_column_true in Hdf as [i Hi].
    destruct (sheet_names_of_Ok df _ (column_Ok _ _ _ Hi)) as (names & -> & Hnames).
    destruct (IH (acc ∪ list_to_set names)) as (found & Hfound & Hin).
    exists found. split; [done|]. intros s. rewrite Hin, elem_of_union, elem_of_list_to_set, Hnames.
    unfold name_of. split.
    + intros [[?|(v & ? & ? & ?)]|(df' & col & v & ? & ?)].
      * by left.
      * right. exists df, ((λ r, cell r i) <$> rows df), v.
        split_and!; [apply list_elem_of_here|by apply column_Ok|done..].
      * right. exists df', col, v. split; [by apply list_elem_of_further|done].
    + intros [?|(df' & col & v & [->|?]%elem_of_cons & Hcol & ? & ? & ?)].
      * by left; left.
      * left; right. rewrite (column_Ok _ _ _ Hi) in Hcol. injection Hcol as <-. by exists v.
      * right. by exists df', col, v.
Qed.

Lemma collect_names_Raise xls acc :
  Exists (λ df, has_column "Name" df = false) xls →
  collect_names xls acc = Raise (KeyError "Name").
Proof.
  revert acc. induction xls as [|df xls IH]; intros acc Hex; [by apply Exists_nil in Hex|].
  simpl. destruct (has_column "Name" df) eqn:Hdf.
  - apply Exists_cons in Hex as [?|Hex]; [congruence|].
    apply has_column_true in Hdf as [i Hi].
    destruct (sheet_names_of_Ok df _ (column_Ok _ _ _ Hi)) as (names & -> & _).
    by apply IH.
  - apply has_column_false in Hdf. unfold sheet_names_of.
    by rewrite (column_Raise _ _ Hdf).
Qed.


(** C9. A sheet without a "Name" column makes the collection of names, and
    with it the whole run, end in [KeyError]; names are returned exactly
    when every sheet has the column. *)
Theorem all_names_needs_Name (xls : ExcelFile) :
  (Exists (λ df, has_column "Name" df = false) xls →
     all_names xls = Raise (KeyError "Name") ∧
     ∀ lookup_file selected_names,
       app (Some xls) lookup_file selected_names = Raise (KeyError "Name")) ∧
  ((∃ names, all_names xls = Ok names) ↔
     Forall (λ df, has_column "Name" df = true) xls).
Proof.
  split.
  - intros Hex. assert (all_names xls = Raise (KeyError "Name")) as Hraise.
    { unfold all_names. by rewrite (collect_names_Raise _ _ Hex). }
    split; [done|]. intros lookup_file selected_names. simpl. by rewrite Hraise.
  - split.
    + intros [names Hnames]. apply Forall_forall. intros df Hdf.
      destruct (has_column "Name" df) eqn:Hhas; [done|].
      assert (all_names xls = Raise (KeyError "Name")) as Hraise; [|congruence].
      unfold all_names. rewrite collect_names_Raise; [done|].
      apply Exists_exists. by exists df.
    + intros Hall. destruct (collect_names_Ok xls ∅ Hall) as (found & Hfound & _).
      unfold all_names. rewrite Hfound. by eexists.
Qed.

End Names.

Section Filter.
Context `{!PyLib}.





End Filter.

Section Lookup.
Context `{!PyLib}.

Lemma to_datetime_datetime col v : datetime (to_datetime col v).
Proof.
  destruct v; simpl; try (by left); try (by right; eexists).
  - destruct (parse_datetime col (VStr s)); simpl; [by right; eexists | by left].
  - destruct (parse_datetime col (VInt z)); simpl; [by right; eexists | by left].
  - destruct (is_nan f); [by left|].
    destruct (parse_datetime col (VFloat f)); simpl; [by right; eexists | by left].
Qed.

Lemma to_datetime_idemp col col' v :
  to_datetime col' (to_datetime col v) = to_datetime col v.
Proof. by destruct (to_datetime_datetime col v) as [->|[t ->]]. Qed.

Lemma py_eq_datetime a b :
  datetime a → datetime b → py_eq a b = true ↔ a = b ∧ b ≠ VNaT.
Proof.
  intros [->|[s ->]] [->|[t ->]]; simpl.
  - split; [done | by intros [_ ?]].
  - split; [done | by intros [? _]].
  - split; [done | by intros [? _]].
  - rewrite Z.eqb_eq. split; [by intros -> | by intros [[= ->] _]].
Qed.

Lemma py_eq_VStr a k : py_eq a (VStr k) = true ↔ a = VStr k.
Proof.
  destruct a; simpl; try (split; [done | by intros [=]]).
  rewrite String.eqb_eq. split; [by intros -> | by intros [= ->]].
Qed.

Lemma read_lookup_datetime raw e :
  e ∈ read_lookup raw → datetime (issue_date e) ∧ datetime (maturity_date e).
Proof.
  intros (e0 & -> & _)%list_elem_of_fmap. simpl. split; apply to_datetime_datetime.
Qed.

Lemma lookup_match_answers raw k d1 d2 e :
  datetime d1 → datetime d2 → e ∈ read_lookup raw →
  lookup_match (VStr k) d1 d2 e = true ↔ answers k d1 d2 e.
Proof.
  intros Hd1 Hd2 [? ?]%read_lookup_datetime. unfold lookup_match, answers.
  rewrite !andb_true_iff, py_eq_VStr, !py_eq_datetime by done.
  tauto.
Qed.

Lemma find_isin_first lookup_df key d1 d2 before e after :
  lookup_df = before ++ e :: after →
  lookup_match key d1 d2 e = true →
  (∀ e', e' ∈ before → lookup_match key d1 d2 e' = false) →
  find_isin lookup_df key d1 d2 = isin e.
Proof.
  intros -> He Hbefore. unfold find_isin. rewrite List.filter_app.
  replace (List.filter _ before) with (@nil LookupRow); [by simpl; rewrite He|].
  symmetry. induction before as [|e' before IH]; simpl; [done|].
  rewrite (Hbefore e') by apply list_elem_of_here.
  apply IH. intros ? ?. by apply Hbefore, list_elem_of_further.
Qed.

Lemma find_isin_none lookup_df key d1 d2 :
  (∀ e, e ∈ lookup_df → lookup_match key d1 d2 e = false) →
  find_isin lookup_df key d1 d2 = VStr "".
Proof.
  intros Hnone. unfold find_isin.
  replace (List.filter _ lookup_df) with (@nil LookupRow); [done|].
  symmetry. induction lookup_df as [|e l IH]; simpl; [done|].
  rewrite (Hnone e) by apply list_elem_of_here.
  apply IH. intros ? ?. by apply Hnone, list_elem_of_further.
Qed.

(** C2, as the script has it. For the table read from the lookup workbook,
    a text key and two coerced dates: the look-up returns the identifier
    of the first entry, in table order, whose key and dates are those of
    the query with no date missing; it returns the empty text when there
    is no such entry, hence whenever a date of the query is missing; an
    entry with a missing date answers no query. An entry of the table with
    a text key and no missing date is found under its own key and dates
    when no earlier entry carries the same key and dates, and is not found
    under its key, its issue date and a missing maturity date. *)
Theorem find_isin_spec (raw : list LookupRow) :
  let lookup_df := read_lookup raw in
  (∀ k d1 d2, datetime d1 → datetime d2 →
     (∀ before e after,
        lookup_df = before ++ e :: after →
        answers k d1 d2 e →
        (∀ e', e' ∈ before → ¬ answers k d1 d2 e') →
        find_isin lookup_df (VStr k) d1 d2 = isin e) ∧
     ((∀ e, e ∈ lookup_df → ¬ answers k d1 d2 e) →
        find_isin lookup_df (VStr k) d1 d2 = VStr "") ∧
     (d1 = VNaT ∨ d2 = VNaT → find_isin lookup_df (VStr k) d1 d2 = VStr "")) ∧
  (∀ e, e ∈ lookup_df → issue_date e = VNaT ∨ maturity_date e = VNaT →
     ∀ key d1 d2, lookup_match key d1 d2 e = false) ∧
  (∀ before e after k,
     lookup_df = before ++ e :: after →
     nbfc e = VStr k → issue_date e ≠ VNaT → maturity_date e ≠ VNaT →
     (∀ e', e' ∈ before →
        ¬ (nbfc e' = nbfc e ∧ issue_date e' = issue_date e ∧
           maturity_date e' = maturity_date e)) →
     find_isin lookup_df (nbfc e) (issue_date e) (maturity_date e) = isin e ∧
     find_isin lookup_df (nbfc e) (issue_date e) VNaT = VStr "").
Proof.
  intros lookup_df.
  assert (∀ k d1 d2 e, datetime d1 → datetime d2 → e ∈ lookup_df →
            ¬ answers k d1 d2 e → lookup_match (VStr k) d1 d2 e = false) as Hno.
  { intros k d1 d2 e ? ? He Hne. apply not_true_is_false. intros Htrue.
    by apply Hne, (lookup_match_answers raw). }
  assert (∀ k d1 d2 before e after, datetime d1 → datetime d2 →
     lookup_df = before ++ e :: after → answers k d1 d2 e →
     (∀ e', e' ∈ before → ¬ answers k d1 d2 e') →
     find_isin lookup_df (VStr k) d1 d2 = isin e) as Hfirst.
  { intros k d1 d2 before e after ? ? Heq He Hbefore.
    apply (find_isin_first _ _ _ _ before e after Heq).
    - apply (lookup_match_answers raw); [done..| |done]. fold lookup_df.
      rewrite Heq. apply elem_of_app. right. apply list_elem_of_here.
    - intros e' He'. apply Hno; [done..| |by apply Hbefore].
      rewrite Heq. apply elem_of_app. by left. }
  assert (∀ k d1 d2, datetime d1 → datetime d2 → d1 = VNaT ∨ d2 = VNaT →
            find_isin lookup_df (VStr k) d1 d2 = VStr "") as Hnat.
  { intros k d1 d2 ? ? Hnat. apply find_isin_none. intros e He. apply Hno; [done..|].
    intros (_ & _ & _ & ? & ?). by destruct Hnat. }
  split_and!.
  - intros k d1 d2 Hd1 Hd2. split_and!.
    + intros before e after. by apply Hfirst.
    + intros Hnone. apply find_isin_none. intros e He. by apply Hno, Hnone.
    + by apply Hnat.
  - intros e He Hnat' key d1 d2. unfold lookup_match.
    destruct Hnat' as [-> | ->]; simpl; by rewrite ?andb_false_r.
  - intros before e after k Heq Hk H1 H2 Hbefore.
    assert (e ∈ lookup_df) as He.
    { rewrite Heq. apply elem_of_app. right. apply list_elem_of_here. }
    destruct (read_lookup_datetime raw e He) as [Hd1 Hd2]. rewrite Hk. split.
    + apply (Hfirst k _ _ before e after Hd1 Hd2 Heq); [done|].
      intros e' He' (? & ? & ? & _). apply (Hbefore e' He'). by rewrite Hk.
    + apply Hnat; [done|by left|by right].
Qed.

End Lookup.

(** ** Lists with one more element in the middle *)

Lemma lookup_insert_at {A : Type} (l : list A) (p : nat) (x : A) (j : nat) :
  (p ≤ length l)%nat →
  (take p l ++ x :: drop p l) !! (if decide (j < p)%nat then j else S j) = l !! j.
Proof.
  intros Hp. destruct (decide (j < p)%nat) as [Hj|Hj].
  - rewrite lookup_app_l by (rewrite length_take; lia). by apply lookup_take_lt.
  - rewrite lookup_app_r by (rewrite length_take; lia).
    rewrite length_take, Nat.min_l by lia.
    replace (S j - p)%nat with (S (j - p)) by lia. simpl.
    rewrite lookup_drop. f_equal. lia.
Qed.

Lemma lookup_insert_at_new {A : Type} (l : list A) (p : nat) (x : A) :
  (p ≤ length l)%nat → (take p l ++ x :: drop p l) !! p = Some x.
Proof.
  intros Hp. rewrite lookup_app_r by (rewrite length_take; lia).
  rewrite length_take, Nat.min_l by lia. by rewrite Nat.sub_diag.
Qed.

Lemma delete_insert_at {A : Type} (l : list A) (p : nat) (x : A) :
  (p ≤ length l)%nat → delete p (take p l ++ x :: drop p l) = l.
Proof.
  intros Hp.
  assert (p = length (take p l)) as Hlen by (rewrite length_take; lia).
  rewrite Hlen at 1. rewrite delete_middle. apply take_drop.
Qed.

Lemma get_loc_app c l1 l2 :
  get_loc c (l1 ++ l2) =
  match get_loc c l1 with
  | Some i => Some i
  | None => (λ j, length l1 + j)%nat <$> get_loc c l2
  end.
Proof.
  induction l1 as [|l l1 IH]; simpl.
  - by destruct (get_loc c l2).
  - destruct (label_is c l); [done|]. rewrite IH.
    destruct (get_loc c l1); simpl; [done|]. by destruct (get_loc c l2).
Qed.

Lemma get_loc_lt c cols i : get_loc c cols = Some i → (i < length cols)%nat.
Proof.
  intros (l & Hl & _)%get_loc_Some. by apply lookup_lt_Some in Hl.
Qed.

Lemma get_loc_insert_at c cols p x :
  (p ≤ length cols)%nat → label_is c x = false →
  get_loc c (take p cols ++ x :: drop p cols) =
  (λ j, if decide (j < p)%nat then j else S j) <$> get_loc c cols.
Proof.
  intros Hp Hx. rewrite <- (take_drop p cols) at 3. rewrite !get_loc_app. simpl.
  rewrite Hx, length_take, Nat.min_l by lia.
  destruct (get_loc c (take p cols)) as [i|] eqn:Hi; simpl.
  - apply get_loc_lt in Hi. rewrite length_take in Hi.
    by rewrite decide_True by lia.
  - destruct (get_loc c (drop p cols)) as [j|]; simpl; [|done].
    rewrite decide_False by lia. f_equal. lia.
Qed.

Lemma get_loc_insert_at_new c cols p :
  (p ≤ length cols)%nat → get_loc c cols = None →
  get_loc c (take p cols ++ VStr c :: drop p cols) = Some p.
Proof.
  intros Hp Hnone. rewrite get_loc_app.
  assert (get_loc c (take p cols) = None) as ->.
  { apply get_loc_None. intros l Hl. eapply get_loc_None; [done|].
    rewrite <- (take_drop p cols). apply elem_of_app. by left. }
  simpl. rewrite String.eqb_refl. simpl. rewrite length_take. f_equal. lia.
Qed.

Lemma traverse_length {A B : Type} (f : A → result B) (l : list A) (ys : list B) :
  traverse f l = Ok ys → length ys = length l.
Proof.
  revert ys. induction l as [|x l IH]; intros ys; simpl.
  - by intros [= <-].
  - intros H. inv_Ok H. subst ys. simpl. f_equal. by apply IH.
Qed.


(** ** The ISIN enrichment *)

Section Enrich.
Context `{!PyLib}.

Lemma moved_inj filtered i j : moved filtered i = moved filtered j → i = j.
Proof.
  unfold moved. destruct (get_loc "NBFC" (columns filtered)); [|done].
  repeat case_decide; lia.
Qed.

Lemma insert_isin_inv filtered w :
  insert_isin filtered = Ok w →
  (get_loc "NBFC" (columns filtered) = None ∧ w = filtered) ∨
  (∃ k, get_loc "NBFC" (columns filtered) = Some k ∧
        get_loc "ISIN" (columns filtered) = None ∧
        w = {| columns := take (S k) (columns filtered) ++ VStr "ISIN" :: drop (S k) (columns filtered);
               rows := (λ r, take (S k) r ++ VStr "" :: drop (S k) r) <$> rows filtered |}).
Proof.
  unfold insert_isin, insert. destruct (get_loc "NBFC" (columns filtered)) as [k|] eqn:Hk.
  - destruct (has_column "ISIN" filtered) eqn:Hisin; [done|].
    intros [= <-]. right. exists k. apply has_column_false in Hisin.
    by rewrite Nat.add_1_r.
  - intros [= <-]. by left.
Qed.

Lemma insert_isin_frame filtered w :
  well_formed filtered →
  insert_isin filtered = Ok w →
  length (rows w) = length (rows filtered) ∧
  (∀ c, c ≠ "ISIN" → get_loc c (columns w) = moved filtered <$> get_loc c (columns filtered)) ∧
  (∀ k, get_loc "NBFC" (columns filtered) = Some k → get_loc "ISIN" (columns w) = Some (S k)) ∧
  (∀ i, columns w !! moved filtered i = columns filtered !! i) ∧
  (∀ n r, rows filtered !! n = Some r →
     ∃ r', rows w !! n = Some r' ∧ ∀ i, r' !! moved filtered i = r !! i).
Proof.
  intros Hwf [[Hk ->]|(k & Hk & Hisin & ->)]%insert_isin_inv; unfold moved; rewrite Hk; simpl.
  - split_and!; [done| |done|done|by eauto].
    intros c _. by destruct (get_loc c (columns filtered)).
  - assert (S k ≤ length (columns filtered))%nat as Hlen by (apply get_loc_lt in Hk; lia).
    split_and!.
    + by rewrite length_fmap.
    + intros c Hc. apply get_loc_insert_at; [done|]. unfold label_is.
      apply String.eqb_neq. congruence.
    + intros ? [= <-]. by apply get_loc_insert_at_new.
    + intros i. by apply lookup_insert_at.
    + intros n r Hr. eexists. split; [by rewrite list_lookup_fmap, Hr|].
      intros i. apply lookup_insert_at.
      unfold well_formed in Hwf. rewrite Forall_forall in Hwf.
      rewrite (Hwf r); [done|]. by eapply list_elem_of_lookup_2.
Qed.

Lemma set_column_columns c vals df i l :
  columns df !! i = Some l → columns (set_column c vals df) !! i = Some l.
Proof.
  intros Hl. unfold set_column. destruct (get_loc c (columns df)); simpl; [done|].
  by apply lookup_app_l_Some.
Qed.

Lemma set_column_rows c vals df n r :
  length vals = length (rows df) →
  rows df !! n = Some r →
  ∃ r', rows (set_column c vals df) !! n = Some r' ∧
        ∀ i v, get_loc c (columns df) ≠ Some i → r !! i = Some v → r' !! i = Some v.
Proof.
  intros Hlen Hr.
  destruct (lookup_lt_is_Some_2 vals n) as [x Hx].
  { rewrite Hlen. by eapply lookup_lt_Some. }
  unfold set_column. destruct (get_loc c (columns df)) as [p|]; simpl;
    rewrite lookup_zip_with, Hr, Hx; simpl; eexists; (split; [done|]).
  - intros i v Hne Hv. rewrite list_lookup_insert_ne; [done|congruence].
  - intros i v _ Hv. by apply lookup_app_l_Some.
Qed.

Lemma set_column_length c vals df :
  length vals = length (rows df) →
  length (rows (set_column c vals df)) = length (rows df).
Proof.
  intros Hlen. unfold set_column. destruct (get_loc c (columns df)); simpl;
    rewrite length_zip_with; lia.
Qed.

Lemma map_column_columns c f df : columns (map_column c f df) = columns df.
Proof. unfold map_column. by destruct (get_loc c (columns df)). Qed.

Lemma map_column_rows c f df n :
  rows (map_column c f df) !! n =
  (λ r, match get_loc c (columns df) with Some p => alter f p r | None => r end)
    <$> rows df !! n.
Proof.
  unfold map_column. destruct (get_loc c (columns df)); simpl.
  - by rewrite list_lookup_fmap.
  - by destruct (rows df !! n).
Qed.

Lemma map_column_length c f df : length (rows (map_column c f df)) = length (rows df).
Proof.
  unfold map_column. destruct (get_loc c (columns df)); simpl; [|done].
  by rewrite length_fmap.
Qed.

Lemma insert_isin_columns filtered w :
  insert_isin filtered = Ok w →
  columns w = columns filtered ∨
  ∃ p, get_loc "ISIN" (columns w) = Some p ∧
       columns w !! p = Some (VStr "ISIN") ∧
       delete p (columns w) = columns filtered.
Proof.
  intros [[_ ->]|(k & Hk & Hisin & ->)]%insert_isin_inv; [by left|]. right.
  apply get_loc_lt in Hk. exists (S k). simpl. split_and!.
  - by apply get_loc_insert_at_new.
  - by apply lookup_insert_at_new.
  - by apply delete_insert_at.
Qed.

Lemma set_column_shape c vals df :
  columns (set_column c vals df) = columns df ∨
  (get_loc c (columns df) = None ∧
   columns (set_column c vals df) = columns df ++ [VStr c]).
Proof.
  unfold set_column. destruct (get_loc c (columns df)); simpl; [by left|by right].
Qed.

Lemma to_datetime_column_columns c df : columns (to_datetime_column c df) = columns df.
Proof.
  unfold to_datetime_column. destruct (get_loc c (columns df)); [|done].
  apply map_column_columns.
Qed.

Lemma to_datetime_column_length c df :
  length (rows (to_datetime_column c df)) = length (rows df).
Proof.
  unfold to_datetime_column. destruct (get_loc c (columns df)); [|done].
  apply map_column_length.
Qed.

Lemma column_at_map_column c f df p i :
  get_loc c (columns df) = Some p → p ≠ i →
  column_at (map_column c f df) i = column_at df i.
Proof.
  intros Hp Hne. unfold column_at, map_column. rewrite Hp. simpl.
  rewrite <- list_fmap_compose. apply list_fmap_ext. intros _ r _. simpl.
  unfold cell. by rewrite list_lookup_alter_ne.
Qed.

(** The frame after the two coercions of lines 64-65: each column is
    coerced with the values it had before. *)
Lemma dated_frame w a b :
  get_loc "Issue Date" (columns w) = Some a →
  get_loc "Maturity Date" (columns w) = Some b →
  to_datetime_column "Maturity Date" (to_datetime_column "Issue Date" w) =
  map_column "Maturity Date" (to_datetime (column_at w b))
    (map_column "Issue Date" (to_datetime (column_at w a)) w).
Proof.
  intros Ha Hb. unfold to_datetime_column. rewrite Ha, map_column_columns, Hb.
  rewrite (column_at_map_column _ _ _ a b); [done..|].
  intros <-. apply get_loc_Some in Ha as (la & Hla & ->%label_is_VStr & _).
  apply get_loc_Some in Hb as (lb & Hlb & ->%label_is_VStr & _). congruence.
Qed.

Lemma column_at_moved filtered w i :
  well_formed filtered → insert_isin filtered = Ok w →
  column_at w (moved filtered i) = column_at filtered i.
Proof.
  intros Hwf Hw. destruct (insert_isin_frame _ _ Hwf Hw) as (Hlen & _ & _ & _ & Hrows).
  unfold column_at. apply list_eq. intros n. rewrite !list_lookup_fmap.
  destruct (rows filtered !! n) as [r|] eqn:Hr.
  - destruct (Hrows n r Hr) as (r' & -> & Hi). simpl. unfold cell. by rewrite Hi.
  - apply lookup_ge_None in Hr. rewrite <- Hlen in Hr. apply lookup_ge_None in Hr.
    by rewrite Hr.
Qed.

Lemma fill_isin_inv lookup w out :
  fill_isin lookup w = Ok out →
  (has_column "Issue Date" w && has_column "Maturity Date" w = false ∧ out = w) ∨
  (has_column "Issue Date" w && has_column "Maturity Date" w = true ∧
   ∃ found,
     traverse (get_isin lookup (columns w))
       (rows (to_datetime_column "Maturity Date"
                (to_datetime_column "Issue Date" w))) = Ok found ∧
     out = set_column "ISIN" found
             (to_datetime_column "Maturity Date"
                (to_datetime_column "Issue Date" w))).
Proof.
  unfold fill_isin.
  destruct (has_column "Issue Date" w && has_column "Maturity Date" w).
  - rewrite !to_datetime_column_columns. intros Hout. inv_Ok Hout. right. split; [done|].
    by exists a.
  - intros [= <-]. by left.
Qed.

Lemma has_column_moved filtered w c :
  get_loc c (columns w) = moved filtered <$> get_loc c (columns filtered) →
  has_column c w = has_column c filtered.
Proof.
  intros Hloc. unfold has_column. rewrite Hloc. apply bool_decide_ext. apply fmap_is_Some.
Qed.

(** C3, as the script has it. The enrichment keeps every column of the
    filtered frame, moved one place to the right when it stands after the
    inserted "ISIN", and keeps the number of rows; the values of the
    columns it keeps are unchanged, except that the "Issue Date" and
    "Maturity Date" values are replaced by the dates [pd.to_datetime]
    makes of them in their column when a lookup table is given and both
    columns are there. *)
Theorem enrich_frame (lookup_df : option (list LookupRow)) (filtered out : DataFrame) :
  well_formed filtered →
  enrich lookup_df filtered = Ok out →
  length (rows out) = length (rows filtered) ∧
  added_isin (columns filtered) (columns out) ∧
  ∀ i l, columns filtered !! i = Some l →
    columns out !! moved filtered i = Some l ∧
    ∀ n r v, rows filtered !! n = Some r → r !! i = Some v →
      ∃ r', rows out !! n = Some r' ∧
            r' !! moved filtered i =
              Some (if coerces lookup_df filtered i
                    then to_datetime (column_at filtered i) v else v).
Proof.
  intros Hwf Henrich. unfold enrich in Henrich. apply bind_Ok in Henrich as (w & Hw & Hout).
  destruct (insert_isin_frame _ _ Hwf Hw) as (Hlen & Hloc & Hisin & Hcols & Hrows).
  assert (added_isin (columns filtered) (columns out)) as Hadded.
  { pose proof (insert_isin_columns _ _ Hw) as Hshape. unfold added_isin.
    destruct lookup_df as [lookup|]; [|injection Hout as <-].
    - apply fill_isin_inv in Hout as [[_ ->]|(_ & found & _ & ->)].
      + destruct Hshape as [->|(p & _ & ? & ?)]; [by left|right; by exists p].
      + destruct (set_column_shape "ISIN" found
                    (to_datetime_column "Maturity Date"
                       (to_datetime_column "Issue Date" w))) as [->|[Hnone ->]];
          rewrite !to_datetime_column_columns in *.
        * destruct Hshape as [->|(p & _ & ? & ?)]; [by left|right; by exists p].
        * destruct Hshape as [->|(p & Hp & _)]; [|congruence].
          right. exists (length (columns filtered)). split.
          -- by rewrite lookup_app_r, Nat.sub_diag.
          -- rewrite (delete_middle _ []). apply app_nil_r.
    - destruct Hshape as [->|(p & _ & ? & ?)]; [by left|right; by exists p]. }
  cut (length (rows out) = length (rows filtered) ∧
       ∀ i l, columns filtered !! i = Some l →
         columns out !! moved filtered i = Some l ∧
         ∀ n r v, rows filtered !! n = Some r → r !! i = Some v →
           ∃ r', rows out !! n = Some r' ∧
                 r' !! moved filtered i =
                   Some (if coerces lookup_df filtered i
                         then to_datetime (column_at filtered i) v else v)).
  { intros [? ?]. by split_and!. }
  clear Hadded.
  assert (length (rows w) = length (rows filtered) ∧
          ∀ i l, columns filtered !! i = Some l →
            columns w !! moved filtered i = Some l ∧
            ∀ n r v, rows filtered !! n = Some r → r !! i = Some v →
              ∃ r', rows w !! n = Some r' ∧ r' !! moved filtered i = Some v) as Hsame.
  { split; [done|]. intros i l Hl. split; [by rewrite Hcols|].
    intros n r v Hr Hv. destruct (Hrows n r Hr) as (r' & Hr' & Hi).
    exists r'. by rewrite Hi. }
  destruct lookup_df as [lookup|]; [|by injection Hout as <-].
  assert (has_column "Issue Date" w = has_column "Issue Date" filtered) as Hhas1
    by (by apply has_column_moved, Hloc).
  assert (has_column "Maturity Date" w = has_column "Maturity Date" filtered) as Hhas2
    by (by apply has_column_moved, Hloc).
  apply fill_isin_inv in Hout as [[Hno ->]|(Hboth & found & Hfound & ->)].
  { unfold coerces. by rewrite <- Hhas1, <- Hhas2, Hno. }
  clear Hsame. pose proof (traverse_length _ _ _ Hfound) as Hlenf.
  rewrite !to_datetime_column_length in Hlenf.
  split.
  { rewrite set_column_length; rewrite !to_datetime_column_length; congruence. }
  intros i l Hl. split.
  { apply set_column_columns. rewrite !to_datetime_column_columns. by rewrite Hcols. }
  intros n r v Hr Hv. destruct (Hrows n r Hr) as (rw & Hrw & Hi).
  (* a row exists, so the look-up of the first row read "NBFC" *)
  assert (∃ k, get_loc "NBFC" (columns filtered) = Some k) as [k Hk].
  { destruct (rows (to_datetime_column "Maturity Date"
                     (to_datetime_column "Issue Date" w))) as [|r0 rest] eqn:Hrows0.
    - apply (f_equal length) in Hrows0. rewrite !to_datetime_column_length in Hrows0.
      apply lookup_lt_Some in Hrw. simpl in Hrows0. lia.
    - simpl in Hfound. apply bind_Ok in Hfound as (? & Hget & _).
      unfold get_isin, loc in Hget. rewrite (Hloc "NBFC") in Hget by done.
      destruct (get_loc "NBFC" (columns filtered)) as [k|]; [by exists k|done]. }
  apply andb_true_iff in Hboth as [[a' Ha']%has_column_true [b' Hb']%has_column_true].
  pose proof Ha' as Ha. pose proof Hb' as Hb.
  rewrite (Hloc "Issue Date") in Ha by done. rewrite (Hloc "Maturity Date") in Hb by done.
  destruct (get_loc "Issue Date" (columns filtered)) as [a|] eqn:Hfa; [|done].
  destruct (get_loc "Maturity Date" (columns filtered)) as [b|] eqn:Hfb; [|done].
  injection Ha as <-. injection Hb as <-.
  assert (a ≠ b) as Hab.
  { intros <-. apply get_loc_Some in Hfa as (la & Hla & ->%label_is_VStr & _).
    apply get_loc_Some in Hfb as (lb & Hlb & ->%label_is_VStr & _). congruence. }
  rewrite (dated_frame w _ _ Ha' Hb'), !(column_at_moved filtered w) by done.
  edestruct (set_column_rows "ISIN" found
               (map_column "Maturity Date" (to_datetime (column_at filtered b))
                  (map_column "Issue Date" (to_datetime (column_at filtered a)) w)) n)
    as (r' & Hr' & Hkeep).
  { by rewrite !map_column_length. }
  { rewrite !map_column_rows, map_column_columns, Hrw. simpl. by rewrite Ha', Hb'. }
  exists r'. split; [done|]. apply Hkeep.
  { rewrite !map_column_columns, (Hisin k Hk). intros [= Heq]. revert Heq.
    unfold moved. rewrite Hk. case_decide; lia. }
  unfold coerces. rewrite <- Hhas1, <- Hhas2.
  rewrite (proj2 (has_column_true _ _) (ex_intro _ _ Ha')),
          (proj2 (has_column_true _ _) (ex_intro _ _ Hb')). simpl.
  destruct (decide (i = a)) as [->|Hia]; [|destruct (decide (i = b)) as [->|Hib]].
  - rewrite bool_decide_eq_true_2 by by left.
    rewrite list_lookup_alter_ne by (intros ?%moved_inj; congruence).
    by rewrite list_lookup_alter_eq, Hi, Hv.
  - rewrite bool_decide_eq_true_2 by by right.
    rewrite list_lookup_alter_eq, list_lookup_alter_ne by (intros ?%moved_inj; congruence).
    by rewrite Hi, Hv.
  - rewrite bool_decide_eq_false_2 by (intros [[=]|[=]]; congruence).
    rewrite !list_lookup_alter_ne by (intros ?%moved_inj; congruence).
    by rewrite Hi.
Qed.
End Enrich.

(** ** The unnamed columns *)

Lemma select_filter {A : Type} (p : A → bool) (l : list A) :
  select (p <$> l) l = List.filter p l.
Proof.
  induction l as [|x l IH]; simpl; [done|]. destruct (p x); [f_equal|]; exact IH.
Qed.

Lemma dropped_label df l :
  l ∈ columns df → existsb (py_eq l) (cols_to_drop df) = unnamed l.
Proof.
  intros Hl. destruct (unnamed l) eqn:Hun.
  - apply existsb_exists. exists l. split.
    + apply filter_In. split; [by apply list_elem_of_In|done].
    + destruct l; try done. simpl. apply String.eqb_refl.
  - apply not_true_is_false. intros (l' & [_ Hun']%filter_In & Heq)%existsb_exists.
    destruct l' as [|s| | | | |]; try done.
    destruct l as [|s'| | | | |]; try done.
    simpl in Heq. apply String.eqb_eq in Heq as ->. congruence.
Qed.

Lemma drop_columns_mask df :
  drop_columns (cols_to_drop df) df =
  {| columns := List.filter (λ l, negb (unnamed l)) (columns df);
     rows := select ((λ l, negb (unnamed l)) <$> columns df) <$> rows df |}.
Proof.
  unfold drop_columns.
  assert ((λ l, negb (existsb (py_eq l) (cols_to_drop df))) <$> columns df =
          (λ l, negb (unnamed l)) <$> columns df) as ->.
  { apply list_fmap_ext. intros i l Hl. f_equal. apply dropped_label.
    by eapply list_elem_of_lookup_2. }
  by rewrite select_filter.
Qed.

Lemma get_loc_filter c (p : value → bool) cols :
  p (VStr c) = true →
  is_Some (get_loc c (List.filter p cols)) ↔ is_Some (get_loc c cols).
Proof.
  intros Hp. rewrite <- !not_eq_None_Some, !get_loc_None.
  split; intros Hsome Hnone; apply Hsome; intros l Hl.
  - apply Hnone. by apply elem_of_filter in Hl as [? _].
  - destruct (label_is c l) eqn:Hc; [|done].
    pose proof Hc as ->%label_is_VStr. rewrite <- Hc. apply Hnone.
    apply elem_of_filter. by split.
Qed.

Lemma has_column_dropped c df :
  unnamed (VStr c) = false →
  has_column c (drop_columns (cols_to_drop df) df) = has_column c df.
Proof.
  intros Hc. rewrite drop_columns_mask. unfold has_column. simpl. apply bool_decide_ext.
  apply (get_loc_filter c (λ l, negb (unnamed l))). by apply negb_true_iff.
Qed.

(** ** The run *)

Section Run.
Context `{!PyLib}.




Lemma row_filter_inv selected_names df filtered :
  row_filter selected_names df = Ok filtered →
  has_column "Name" df = true ∧ has_column "Units" df = true ∧
  columns filtered = columns df.
Proof.
  unfold row_filter, loc.
  destruct (get_loc "Name" (columns df)) as [i|] eqn:Hi; [|done].
  destruct (get_loc "Units" (columns df)) as [j|] eqn:Hj; [|done].
  intros [= <-]. split_and!; [apply has_column_true; by eexists..|done].
Qed.

Lemma empty_rows df :
  has_column "Name" df = true → empty df = true ↔ rows df = [].
Proof.
  intros [i Hi]%has_column_true. unfold empty.
  destruct (rows df), (columns df); simpl in *; done.
Qed.

Lemma process_sheet_inv selected_names lookup_df df l :
  process_sheet selected_names lookup_df df = Ok l →
  ∃ filtered, row_filter selected_names df = Ok filtered ∧
    ((rows filtered = [] ∧ l = []) ∨
     (rows filtered ≠ [] ∧ ∃ enriched, l = [enriched])).
Proof.
  unfold process_sheet. intros Hl. apply bind_Ok in Hl as (filtered & Hf & Hl).
  exists filtered. split; [done|].
  destruct (row_filter_inv _ _ _ Hf) as (Hname & _ & Hcols).
  assert (has_column "Name" filtered = true) as Hname'.
  { unfold has_column in *. by rewrite Hcols. }
  destruct (empty filtered) eqn:Hempty.
  - injection Hl as <-. left. by apply empty_rows in Hempty.
  - right. split.
    + intros Hnil. apply (empty_rows _ Hname') in Hnil. congruence.
    + inv_Ok Hl. by eexists.
Qed.

Lemma process_sheet_no_rows selected_names lookup_df df filtered :
  row_filter selected_names df = Ok filtered → rows filtered = [] →
  process_sheet selected_names lookup_df df = Ok [].
Proof.
  intros Hf Hnil. unfold process_sheet. rewrite Hf. simpl.
  unfold empty. by rewrite Hnil.
Qed.

Lemma combined_rows_no_rows selected_names lookup_df xls :
  (∀ df, df ∈ xls → ∃ filtered,
     row_filter selected_names df = Ok filtered ∧ rows filtered = []) →
  combined_rows selected_names lookup_df xls = Ok [].
Proof.
  induction xls as [|df xls IH]; intros Hall; simpl; [done|].
  destruct (Hall df) as (filtered & Hf & Hnil); [apply list_elem_of_here|].
  rewrite (process_sheet_no_rows _ _ _ _ Hf Hnil). simpl.
  rewrite IH; [done|]. intros df' ?. by apply Hall, list_elem_of_further.
Qed.

Lemma combined_rows_some selected_names lookup_df xls enriched rest :
  combined_rows selected_names lookup_df xls = Ok (enriched :: rest) →
  ∃ df filtered, df ∈ xls ∧ row_filter selected_names df = Ok filtered ∧
                 rows filtered ≠ [].
Proof.
  revert enriched rest. induction xls as [|df xls IH]; intros enriched rest; simpl; [done|].
  intros Hc. inv_Ok Hc.
  destruct (process_sheet_inv _ _ _ _ Ha) as (filtered & Hf & [[_ ->]|[Hne _]]).
  - simpl in Hc. subst a0. destruct (IH _ _ Ha0) as (df' & f' & ? & ? & ?).
    exists df', f'. split_and!; [by apply list_elem_of_further|done..].
  - exists df, filtered. split_and!; [apply list_elem_of_here|done..].
Qed.

Lemma combined_rows_nil selected_names lookup_df xls :
  combined_rows selected_names lookup_df xls = Ok [] →
  ∀ df, df ∈ xls → ∃ filtered,
    row_filter selected_names df = Ok filtered ∧ rows filtered = [].
Proof.
  induction xls as [|df xls IH]; simpl; [by intros _ ? ?%elem_of_nil|].
  intros Hc. inv_Ok Hc. apply app_eq_nil in Hc as [-> ->].
  intros df' [->|Hin]%elem_of_cons; [|by apply IH].
  destruct (process_sheet_inv _ _ _ _ Ha) as (filtered & Hf & [[Hnil _]|[_ [e [=]]]]).
  by exists filtered.
Qed.

Lemma combined_rows_app selected_names lookup_df xs ys :
  combined_rows selected_names lookup_df (xs ++ ys) =
  (before ← combined_rows selected_names lookup_df xs;
   after ← combined_rows selected_names lookup_df ys;
   Ok (before ++ after)).
Proof.
  induction xs as [|df xs IH]; simpl.
  - by destruct (combined_rows _ _ ys).
  - destruct (process_sheet _ _ df) as [here|e]; [|done]. simpl. rewrite IH.
    destruct (combined_rows _ _ xs) as [before|e]; [|done]. simpl.
    destruct (combined_rows _ _ ys) as [after|e]; [|done]. simpl.
    by rewrite app_assoc.
Qed.

(** C5, as the script has it. Once a name is selected, a run in which the
    filter keeps no row of any sheet shows the notice; a run offers the
    workbook for download only if a name is selected and the filter kept a
    row of some sheet; it shows the notice only if a name is selected and
    the filter kept no row of any sheet; and with no name selected a run
    that ends without exception shows nothing, as it does whenever every
    sheet has a "Name" column. *)
Theorem no_match_notice (xls : ExcelFile) (lookup_file : option (list LookupRow))
    (selected_names : list string) :
  (selected_names ≠ [] →
   (∀ df, df ∈ xls → ∃ filtered,
      row_filter selected_names df = Ok filtered ∧ rows filtered = []) →
   app (Some xls) lookup_file selected_names =
     Ok (Info "No matching rows found with positive Units.")) ∧
  (∀ file_name data,
     app (Some xls) lookup_file selected_names = Ok (Download file_name data) →
     selected_names ≠ [] ∧
     ∃ df filtered, df ∈ xls ∧ row_filter selected_names df = Ok filtered ∧
                    rows filtered ≠ []) ∧
  (∀ msg,
     app (Some xls) lookup_file selected_names = Ok (Info msg) →
     selected_names ≠ [] ∧
     msg = "No matching rows found with positive Units." ∧
     ∀ df, df ∈ xls → ∃ filtered,
       row_filter selected_names df = Ok filtered ∧ rows filtered = []) ∧
  (selected_names = [] →
   (∀ o, app (Some xls) lookup_file selected_names = Ok o → o = Nothing) ∧
   (Forall (λ df, has_column "Name" df = true) xls →
    app (Some xls) lookup_file selected_names = Ok Nothing)).
Proof.
  split_and!.
  - intros Hsel Hnone. simpl.
    destruct (collect_names_Ok xls ∅) as (found & Hfound & _).
    { apply Forall_forall. intros df Hdf. destruct (Hnone df Hdf) as (f & Hf & _).
      by apply row_filter_inv in Hf as (? & _). }
    unfold all_names. rewrite Hfound. simpl.
    destruct selected_names as [|s sel]; [done|].
    by rewrite (combined_rows_no_rows _ _ _ Hnone).
  - intros file_name data Happ. simpl in Happ. inv_Ok Happ.
    destruct selected_names as [|s sel]; [done|]. split; [done|].
    inv_Ok Happ. destruct a0 as [|enriched rest]; [done|].
    by eapply combined_rows_some.
  - intros msg Happ. simpl in Happ. inv_Ok Happ.
    destruct selected_names as [|s sel]; [done|]. split; [done|].
    inv_Ok Happ. destruct a0 as [|enriched rest]; [|done].
    injection Happ as <-. split; [done|]. by eapply combined_rows_nil.
  - intros ->. simpl. split.
    + intros o Happ. inv_Ok Happ. by subst o.
    + intros Hall. destruct (collect_names_Ok xls ∅ Hall) as (found & Hfound & _).
      unfold all_names. by rewrite Hfound.
Qed.




End Run.

(** ** The worksheet *)

Section Formatting.
Context `{!PyLib}.

Lemma format_column_rule col_idx col_name header data :
  format_column col_idx col_name (header :: data) =
  header :: (alter (format_cell col_name) col_idx <$> data).
Proof.
  unfold format_column, format_cell, column_rule.
  repeat case_match; try done.
  simpl. f_equal. symmetry. etrans; [|apply list_fmap_id]. apply list_fmap_ext.
  intros _ r _. apply list_alter_id. intros c. by destruct (is_not_None _).
Qed.

Lemma format_columns_rows col_idx names header data :
  format_columns col_idx names (header :: data) =
  header :: (format_row col_idx names <$> data).
Proof.
  revert col_idx data. induction names as [|col_name names IH]; intros col_idx data; simpl.
  - by rewrite list_fmap_id.
  - rewrite format_column_rule, IH. f_equal. by rewrite <- list_fmap_compose.
Qed.

Lemma format_row_lookup col_idx names r j :
  format_row col_idx names r !! j =
  match names !! (j - col_idx)%nat with
  | Some col_name =>
      if decide (col_idx ≤ j)%nat then format_cell col_name <$> r !! j else r !! j
  | None => r !! j
  end.
Proof.
  revert col_idx r. induction names as [|col_name names IH]; intros col_idx r; simpl; [done|].
  rewrite IH. destruct (decide (j < col_idx)%nat) as [Hlt|Hge].
  - replace (j - S col_idx)%nat with 0%nat by lia. replace (j - col_idx)%nat with 0%nat by lia.
    simpl. rewrite (decide_False (P := (col_idx ≤ j)%nat)) by lia.
    rewrite list_lookup_alter_ne by lia.
    destruct (names !! 0%nat); [|done]. by rewrite decide_False by lia.
  - destruct (decide (j = col_idx)) as [->|Hne].
    + rewrite Nat.sub_diag. replace (col_idx - S col_idx)%nat with 0%nat by lia. simpl.
      rewrite decide_True by lia. rewrite list_lookup_alter_eq.
      destruct (names !! 0%nat); [|done]. by rewrite decide_False by lia.
    + replace (j - col_idx)%nat with (S (j - S col_idx)) by lia. simpl.
      rewrite list_lookup_alter_ne by lia.
      destruct (names !! (j - S col_idx)%nat); [|done].
      rewrite decide_True by lia. by rewrite decide_True by lia.
Qed.

(** The cell the workbook holds for a value of the frame: the rule of its
    column applied to the value as appended. *)
Lemma render_cell final_df j n col_name r v :
  columns final_df !! j = Some col_name →
  rows final_df !! n = Some r →
  r !! j = Some v →
  ws_cell (active (render final_df)) (S n) j =
    Some (format_cell col_name {| cell_value := v; style := Normal |}).
Proof.
  intros Hl Hr Hv. unfold render, append_rows, ws_cell. simpl.
  rewrite format_columns_rows. simpl.
  rewrite list_lookup_fmap, (list_lookup_fmap (map _)), Hr. simpl.
  rewrite format_row_lookup, Nat.sub_0_r, Hl. simpl.
  by rewrite (list_lookup_fmap _ r), Hv.
Qed.



Lemma append_assoc (a b c : string) : (a +:+ b) +:+ c = a +:+ (b +:+ c).
Proof.
  induction a as [|x a IH]; [done|].
  change (String x ((a +:+ b) +:+ c) = String x (a +:+ (b +:+ c))). by rewrite IH.
Qed.

Lemma contains_app (a b s : string) :
  contains (a +:+ b) s = true → contains a s = true.
Proof.
  rewrite !contains_spec. intros (before & after & ->).
  exists before, (b +:+ after). by rewrite append_assoc.
Qed.

(** C6, as the script has it. In a column whose name contains neither
    "Interest" nor "Amount", a data cell that is not None keeps its value
    and is formatted [DD-MMM-YY] when the name contains "Date", written
    this way, and its lower-case form contains neither "issue" nor
    "maturity"; it is formatted [MMM-YY] when the lower-case form of the
    name contains "issue" or "maturity". *)
Theorem date_columns (final_df : DataFrame) (j n : nat) (col_name v : value)
    (r : list value) :
  columns final_df !! j = Some col_name →
  rows final_df !! n = Some r →
  r !! j = Some v →
  v ≠ VNone →
  contains "Interest" (str_of col_name) = false →
  contains "Amount" (str_of col_name) = false →
  ∃ c, ws_cell (active (render final_df)) (S n) j = Some c ∧
    cell_value c = v ∧
    (contains "Date" (str_of col_name) = true →
     contains_any ["issue"; "maturity"] (lower (str_of col_name)) = false →
     number_format (style c) = "DD-MMM-YY") ∧
    (contains_any ["issue date"; "maturity date"; "issue"; "maturity"]
       (lower (str_of col_name)) = true →
     number_format (style c) = "MMM-YY").
Proof.
  intros Hl Hr Hv Hnone Hint Hamt. eexists. split; [by eapply render_cell|].
  assert (contains_any ["issue date"; "maturity date"; "issue"; "maturity"]
            (lower (str_of col_name)) =
          contains_any ["issue"; "maturity"] (lower (str_of col_name))) as Heq.
  { unfold contains_any. simpl.
    destruct (contains "issue" _) eqn:Hi, (contains "maturity" _) eqn:Hm;
      rewrite ?orb_true_r, ?orb_false_r; try done.
    destruct (contains "issue date" _) eqn:Hid.
    { apply (contains_app "issue" " date") in Hid. congruence. }
    destruct (contains "maturity date" _) eqn:Hmd; [|done].
    apply (contains_app "maturity" " date") in Hmd. congruence. }
  unfold format_cell, column_rule. rewrite Hint, Hamt, Heq.
  generalize (contains_any ["issue"; "maturity"] (lower (str_of col_name))).
  intros any. simpl (cell_value _).
  assert (is_not_None v = true) as -> by by destruct v.
  destruct (contains "Date" (str_of col_name)), any; simpl; by split_and!.
Qed.

Lemma max_length_step_max m c :
  max_length_step m c =
  (m `max` (if truthy (cell_value c) then String.length (str_of (cell_value c)) else 0))%nat.
Proof.
  unfold max_length_step. destruct (truthy (cell_value c)); simpl; [|lia].
  destruct (Nat.ltb_spec m (String.length (str_of (cell_value c)))); lia.
Qed.

Lemma foldl_max_length m column :
  let L := foldl max_length_step m column in
  (m ≤ L)%nat ∧
  (∀ c, c ∈ column → truthy (cell_value c) = true →
        (String.length (str_of (cell_value c)) ≤ L)%nat) ∧
  (L = m ∨
   ∃ c, c ∈ column ∧ truthy (cell_value c) = true ∧
        String.length (str_of (cell_value c)) = L).
Proof.
  revert m. induction column as [|c column IH]; intros m; simpl.
  - split_and!; [done| |by left]. by intros ? ?%elem_of_nil.
  - destruct (IH (max_length_step m c)) as (Hle & Hall & Hex).
    pose proof (max_length_step_max m c) as Hstep. split_and!.
    + lia.
    + intros c' [->|?]%elem_of_cons Ht; [|by apply Hall].
      rewrite Ht in Hstep. lia.
    + destruct Hex as [->|(c' & ? & ? & ?)].
      * destruct (truthy (cell_value c)) eqn:Ht.
        -- destruct (Nat.max_spec m (String.length (str_of (cell_value c)))) as [[_ Hm]|[_ Hm]].
           ++ right. exists c. split_and!; [apply list_elem_of_here|done|lia].
           ++ left. lia.
        -- left. lia.
      * right. exists c'. split_and!; [by apply list_elem_of_further|done..].
Qed.

Lemma max_length_longest column : longest_truthy (max_length column) column.
Proof.
  destruct (foldl_max_length 0 column) as (_ & Hall & Hex). by split.
Qed.

(** C7, as the script has it. The width of a column of the worksheet is
    [min(L + 2, 50)], where [L] is the greatest text length among the cells
    of the column, header included, whose value is true in Python's sense
    (not None, not zero, not empty, not False), and 0 when there is no such
    cell. *)
Theorem column_width_spec (final_df : DataFrame) (j : nat) (column : list Cell) :
  ws_columns (active (render final_df)) !! j = Some column →
  (∀ row c, ws_cell (active (render final_df)) row j = Some c → c ∈ column) ∧
  ∃ L, column_width (render final_df) !! j = Some ((L + 2) `min` 50)%nat ∧
       longest_truthy L column.
Proof.
  intros Hcol. split.
  - intros row c Hc. unfold ws_columns in Hcol.
    rewrite list_lookup_fmap in Hcol.
    destruct (seq 0 (max_column (active (render final_df))) !! j) as [j'|] eqn:Hj; [|done].
    apply lookup_seq in Hj as [-> _]. injection Hcol as <-.
    unfold ws_cell in Hc. destruct (active (render final_df) !! row) as [r|] eqn:Hr; [|done].
    apply list_elem_of_omap. exists r. split; [by eapply list_elem_of_lookup_2|done].
  - exists (max_length column). split; [|apply max_length_longest].
    unfold render, auto_widths. simpl. unfold render in Hcol. simpl in Hcol.
    by rewrite list_lookup_fmap, Hcol.
Qed.
End Formatting.

(** * Further properties of the script *)

(** ** Lists *)



Lemma sum_list_append (l k : list nat) : sum_list (l ++ k) = (sum_list l + sum_list k)%nat.
Proof. induction l as [|x l IH]; simpl; [done|]. rewrite IH. lia. Qed.

Lemma sum_list_lookup_le {A : Type} (f : A → nat) (l : list A) (i : nat) (x : A) :
  l !! i = Some x → (f x ≤ sum_list (f <$> l))%nat.
Proof.
  revert i. induction l as [|y l IH]; intros [|i] Hi; try done; rewrite fmap_cons;
    change (sum_list (f y :: (f <$> l))) with (f y + sum_list (f <$> l))%nat.
  - injection Hi as ->. lia.
  - specialize (IH _ Hi). lia.
Qed.

Lemma select_zip {A B : Type} (p : A → bool) (l : list A) (r : list B) :
  length r = length l →
  zip (select (p <$> l) l) (select (p <$> l) r) =
  List.filter (λ lv, p lv.1) (zip l r).
Proof.
  revert r. induction l as [|x l IH]; intros [|y r] Hlen; simpl in *; try done.
  destruct (p x); simpl; [f_equal|]; apply IH; lia.
Qed.

Lemma select_length_fmap {A B : Type} (p : A → bool) (l : list A) (r : list B) :
  length r = length l →
  length (select (p <$> l) r) = length (select (p <$> l) l).
Proof.
  revert r. induction l as [|x l IH]; intros [|y r] Hlen; simpl in *; try done.
  destruct (p x); simpl; [f_equal|]; apply IH; lia.
Qed.

Lemma traverse_fmap {A B : Type} (f : A → result B) (g : A → B) (l : list A) :
  (∀ x, x ∈ l → f x = Ok (g x)) → traverse f l = Ok (g <$> l).
Proof.
  induction l as [|x l IH]; intros Hall; simpl; [done|].
  rewrite (Hall x) by apply list_elem_of_here. simpl.
  rewrite IH; [done|]. intros y ?. by apply Hall, list_elem_of_further.
Qed.

(** ** The names and the selection *)

Section Selection.
Context `{!PyLib}.

(** X1. The names offered depend on the sheets only as a set: sheets in
    another order, or a sheet repeated, give the same sorted names, and
    the same exception when a sheet has no "Name" column. *)
Theorem all_names_of_sheet_set (xls xls' : ExcelFile) :
  (∀ df, df ∈ xls ↔ df ∈ xls') →
  all_names xls = all_names xls'.
Proof.
  intros Hsame. unfold all_names.
  destruct (decide (Forall (λ df, has_column "Name" df = true) xls)) as [Hall|Hex].
  - assert (Forall (λ df, has_column "Name" df = true) xls') as Hall'.
    { rewrite Forall_forall in *. intros df Hdf. by apply Hall, Hsame. }
    destruct (collect_names_Ok xls ∅ Hall) as (found & -> & Hin).
    destruct (collect_names_Ok xls' ∅ Hall') as (found' & -> & Hin').
    assert (found = found') as ->; [|done].
    apply set_eq. intros s. rewrite Hin, Hin'. unfold name_of.
    split; (intros [?|(df & col & v & Hdf & ?)]; [by left|right]);
      exists df, col, v; (split; [by apply Hsame|done]).
  - apply not_Forall_Exists in Hex; [|apply _].
    assert (Exists (λ df, has_column "Name" df = false) xls) as Hno.
    { eapply Exists_impl; [done|]. intros df. simpl. by destruct (has_column "Name" df). }
    assert (Exists (λ df, has_column "Name" df = false) xls') as Hno'.
    { rewrite Exists_exists in *. destruct Hno as (df & Hdf & ?). exists df.
      split; [by apply Hsame|done]. }
    by rewrite !collect_names_Raise.
Qed.





(** X2. Reading the lookup lines keeps their number, their order, their
    keys and their identifiers; every date of the table is then a
    Timestamp or NaT, a date that was a Timestamp already is unchanged,
    and coercing the dates of the table again would change nothing. *)
Theorem read_lookup_dates (raw : list LookupRow) :
  nbfc <$> read_lookup raw = nbfc <$> raw ∧
  isin <$> read_lookup raw = isin <$> raw ∧
  (∀ e, e ∈ read_lookup raw → datetime (issue_date e) ∧ datetime (maturity_date e)) ∧
  (∀ n e t, raw !! n = Some e → issue_date e = VDate t →
     issue_date <$> read_lookup raw !! n = Some (VDate t)) ∧
  (∀ n e t, raw !! n = Some e → maturity_date e = VDate t →
     maturity_date <$> read_lookup raw !! n = Some (VDate t)) ∧
  read_lookup (read_lookup raw) = read_lookup raw.
Proof.
  unfold read_lookup. split_and!.
  - rewrite <- list_fmap_compose. by apply list_fmap_ext.
  - rewrite <- list_fmap_compose. by apply list_fmap_ext.
  - intros e (e0 & -> & _)%list_elem_of_fmap. simpl. split; apply to_datetime_datetime.
  - intros n e t Hn Ht. rewrite list_lookup_fmap, Hn. simpl. by rewrite Ht.
  - intros n e t Hn Ht. rewrite list_lookup_fmap, Hn. simpl. by rewrite Ht.
  - rewrite <- list_fmap_compose. apply list_fmap_ext. intros _ e _. simpl.
    f_equal; apply to_datetime_idemp.
Qed.

End Selection.

(** ** Dropping the unnamed columns *)

(** X6. Dropping the empty and unnamed columns keeps, in order, exactly
    the columns whose label is not blank text and does not start with
    "Unnamed"; a column with any other text label is there afterwards
    exactly when it was before; no row is lost, and in a rectangular frame
    every row keeps the values of the kept columns, each under its label,
    so the result is rectangular too. *)
Theorem drop_unnamed_columns (df : DataFrame) :
  let out := drop_columns (cols_to_drop df) df in
  columns out = List.filter (λ l, negb (unnamed l)) (columns df) ∧
  (∀ l, l ∈ columns out → unnamed l = false) ∧
  (∀ c, unnamed (VStr c) = false → has_column c out = has_column c df) ∧
  length (rows out) = length (rows df) ∧
  (well_formed df →
   well_formed out ∧
   ∀ n r, rows df !! n = Some r →
     ∃ r', rows out !! n = Some r' ∧
       zip (columns out) r' =
       List.filter (λ lv, negb (unnamed lv.1)) (zip (columns df) r)).
Proof.
  intros out. unfold out. split_and!.
  - by rewrite drop_columns_mask.
  - rewrite drop_columns_mask. simpl.
    intros l [_ Hl]%elem_of_filter. by apply negb_true_iff.
  - intros c Hc. by apply has_column_dropped.
  - rewrite drop_columns_mask. simpl. by rewrite length_fmap.
  - rewrite drop_columns_mask. simpl.
    intros Hwf. unfold well_formed in *. rewrite Forall_forall in Hwf. simpl. split.
    + apply Forall_forall. intros r' (r & -> & Hr)%list_elem_of_fmap.
      rewrite <- select_filter. apply select_length_fmap. by apply Hwf.
    + intros n r Hr. eexists. split; [by rewrite list_lookup_fmap, Hr|].
      rewrite <- select_filter. apply (select_zip (λ l, negb (unnamed l))).
      apply Hwf. by eapply list_elem_of_lookup_2.
Qed.

(** ** The look-up of the rows *)

Section Look_ups.
Context `{!PyLib}.

Lemma insert_isin_get_loc filtered w c :
  insert_isin filtered = Ok w → c ≠ "ISIN" →
  get_loc c (columns w) = moved filtered <$> get_loc c (columns filtered).
Proof.
  intros [[Hk ->]|(k & Hk & _ & ->)]%insert_isin_inv Hc; unfold moved; rewrite Hk; simpl.
  - by destruct (get_loc c (columns filtered)).
  - apply get_loc_insert_at; [apply get_loc_lt in Hk; lia|].
    unfold label_is. apply String.eqb_neq. congruence.
Qed.

Lemma enrich_no_dates lookup filtered :
  has_column "Issue Date" filtered && has_column "Maturity Date" filtered = false →
  enrich (Some lookup) filtered = enrich None filtered.
Proof.
  intros Hdates. unfold enrich.
  destruct (insert_isin filtered) as [w|e] eqn:Hw; [|done]. simpl.
  unfold fill_isin.
  rewrite (has_column_moved filtered w "Issue Date"),
          (has_column_moved filtered w "Maturity Date"), Hdates;
    [done|by apply insert_isin_get_loc..].
Qed.

Lemma enrich_length lookup_df filtered out :
  enrich lookup_df filtered = Ok out → length (rows out) = length (rows filtered).
Proof.
  unfold enrich. intros Hout. apply bind_Ok in Hout as (w & Hw & Hout).
  assert (length (rows w) = length (rows filtered)) as <-.
  { apply insert_isin_inv in Hw as [[_ ->]|(k & _ & _ & ->)]; [done|].
    simpl. by rewrite length_fmap. }
  destruct lookup_df as [lookup|]; [|by injection Hout as <-].
  apply fill_isin_inv in Hout as [[_ ->]|(_ & found & Hfound & ->)]; [done|].
  apply traverse_length in Hfound.
  rewrite set_column_length by done. by rewrite !to_datetime_column_length.
Qed.

(** X7. With a lookup table, on a rectangular frame that has "NBFC" and
    both date columns and no "ISIN" column yet, the enrichment returns:
    "ISIN" stands right after "NBFC", the rows are as many as before, and
    the "ISIN" value of every row is the look-up of the row's "NBFC" value
    and of the two dates [pd.to_datetime] makes of the row's "Issue Date"
    and "Maturity Date" values, each in its column of the frame. *)
Theorem enrich_fills_isin (lookup : list LookupRow) (filtered : DataFrame) (k a b : nat) :
  well_formed filtered →
  get_loc "NBFC" (columns filtered) = Some k →
  get_loc "Issue Date" (columns filtered) = Some a →
  get_loc "Maturity Date" (columns filtered) = Some b →
  has_column "ISIN" filtered = false →
  ∃ out, enrich (Some lookup) filtered = Ok out ∧
    columns out !! k = Some (VStr "NBFC") ∧
    columns out !! S k = Some (VStr "ISIN") ∧
    length (rows out) = length (rows filtered) ∧
    ∀ n r, rows filtered !! n = Some r →
      ∃ r', rows out !! n = Some r' ∧
        r' !! S k = Some (find_isin lookup (cell r k)
                            (to_datetime (column_at filtered a) (cell r a))
                            (to_datetime (column_at filtered b) (cell r b))).
Proof.
  intros Hwf Hk Ha Hb Hisin.
  destruct (insert_isin filtered) as [w|e] eqn:Hw; last first.
  { unfold insert_isin, insert in Hw. by rewrite Hk, Hisin in Hw. }
  destruct (insert_isin_frame _ _ Hwf Hw) as (Hlen & Hloc & Hnew & Hcols & Hrows).
  pose proof (Hloc "NBFC" ltac:(done)) as Hk'.
  pose proof (Hloc "Issue Date" ltac:(done)) as Ha'.
  pose proof (Hloc "Maturity Date" ltac:(done)) as Hb'.
  rewrite Hk in Hk'. rewrite Ha in Ha'. rewrite Hb in Hb'. simpl in Hk', Ha', Hb'.
  specialize (Hnew k Hk).
  assert (moved filtered k = k) as Hmk by (unfold moved; rewrite Hk; by rewrite decide_True by lia).
  rewrite Hmk in Hk'.
  assert (a ≠ b) as Hab.
  { intros <-. apply get_loc_Some in Ha as (la & Hla & ->%label_is_VStr & _).
    apply get_loc_Some in Hb as (lb & Hlb & ->%label_is_VStr & _). congruence. }
  assert (k ≠ a ∧ k ≠ b) as [Hka Hkb].
  { split; intros <-; apply get_loc_Some in Hk as (lk & Hlk & ->%label_is_VStr & _).
    - apply get_loc_Some in Ha as (la & Hla & ->%label_is_VStr & _). congruence.
    - apply get_loc_Some in Hb as (lb & Hlb & ->%label_is_VStr & _). congruence. }
  set (issued := to_datetime (column_at filtered a)).
  set (matured := to_datetime (column_at filtered b)).
  set (dated := map_column "Maturity Date" matured (map_column "Issue Date" issued w)).
  assert (to_datetime_column "Maturity Date" (to_datetime_column "Issue Date" w) = dated)
    as Hdated.
  { rewrite (dated_frame w _ _ Ha' Hb'). by rewrite !(column_at_moved filtered w). }
  set (answer := λ r : list value,
         find_isin lookup (cell r k) (cell r (moved filtered a)) (cell r (moved filtered b))).
  assert (traverse (get_isin lookup (columns dated)) (rows dated) =
          Ok (answer <$> rows dated)) as Hfound.
  { apply traverse_fmap. intros r _. unfold get_isin, loc, dated.
    by rewrite !map_column_columns, Hk', Ha', Hb'. }
  exists (set_column "ISIN" (answer <$> rows dated) dated). split.
  { unfold enrich. rewrite Hw. simpl. unfold fill_isin.
    rewrite (proj2 (has_column_true _ _) (ex_intro _ _ Ha')),
            (proj2 (has_column_true _ _) (ex_intro _ _ Hb')). simpl.
    rewrite Hdated. by rewrite Hfound. }
  assert (length (rows dated) = length (rows filtered)) as Hlend.
  { unfold dated. by rewrite !map_column_length. }
  split_and!.
  - apply set_column_columns. unfold dated. rewrite !map_column_columns.
    rewrite <- Hmk, Hcols. by apply get_loc_Some in Hk as (l & ? & ->%label_is_VStr & _).
  - apply set_column_columns. unfold dated. rewrite !map_column_columns.
    by apply get_loc_Some in Hnew as (l & ? & ->%label_is_VStr & _).
  - rewrite set_column_length; [done|]. by rewrite length_fmap.
  - intros n r Hr. destruct (Hrows n r Hr) as (rw & Hrw & Hi).
    assert (length r = length (columns filtered)) as Hlr.
    { unfold well_formed in Hwf. rewrite Forall_forall in Hwf.
      apply Hwf. by eapply list_elem_of_lookup_2. }
    set (rd := alter matured (moved filtered b) (alter issued (moved filtered a) rw)).
    assert (rows dated !! n = Some rd) as Hrd.
    { unfold dated. rewrite !map_column_rows, map_column_columns, Hrw. simpl.
      by rewrite Ha', Hb'. }
    exists (<[S k := answer rd]> rd). split.
    { unfold set_column. unfold dated at 1. rewrite !map_column_columns, Hnew. simpl.
      by rewrite lookup_zip_with, Hrd, list_lookup_fmap, Hrd. }
    assert (S k < length rd)%nat as Hlen'.
    { unfold rd. rewrite !length_alter.
      pose proof (get_loc_lt _ _ _ Hk) as Hlt.
      apply insert_isin_inv in Hw as [[Hnone _]|(k' & Hk0 & _ & ->)]; [congruence|].
      assert (k' = k) as -> by congruence.
      simpl in Hrw. rewrite list_lookup_fmap, Hr in Hrw. injection Hrw as <-.
      rewrite length_app, length_take, length_cons, length_drop. lia. }
    rewrite list_lookup_insert_eq by done. f_equal. unfold answer. f_equal.
    all: unfold cell, rd.
    + rewrite !list_lookup_alter_ne by (rewrite <- Hmk; intros ?%moved_inj; congruence).
      by rewrite <- (Hi k), Hmk.
    + rewrite list_lookup_alter_ne by (intros ?%moved_inj; congruence).
      rewrite list_lookup_alter_eq, Hi.
      destruct (lookup_lt_is_Some_2 r a) as [v ->]; [|done].
      apply get_loc_lt in Ha. lia.
    + rewrite list_lookup_alter_eq, list_lookup_alter_ne by (intros ?%moved_inj; congruence).
      rewrite Hi.
      destruct (lookup_lt_is_Some_2 r b) as [v ->]; [|done].
      apply get_loc_lt in Hb. lia.
Qed.

(** X8. With a lookup table but without one of the two date columns, the
    enrichment does what it does without a lookup table: the "ISIN" column
    is only inserted and stays empty. Without a lookup table a frame that
    has no "NBFC" column is returned as it is. *)
Theorem enrich_needs_both_dates (lookup : list LookupRow) (filtered : DataFrame) :
  (has_column "Issue Date" filtered && has_column "Maturity Date" filtered = false →
   enrich (Some lookup) filtered = enrich None filtered) ∧
  (get_loc "NBFC" (columns filtered) = None → enrich None filtered = Ok filtered).
Proof.
  split; [apply enrich_no_dates|].
  intros Hk. unfold enrich, insert_isin. by rewrite Hk.
Qed.

(** X9. With a lookup table and both date columns, a frame that has rows
    but no "NBFC" column makes the enrichment end in [KeyError]: the
    look-up of the first row reads [row['NBFC']]. *)
Theorem enrich_without_nbfc_raises (lookup : list LookupRow) (filtered : DataFrame) :
  get_loc "NBFC" (columns filtered) = None →
  has_column "Issue Date" filtered = true →
  has_column "Maturity Date" filtered = true →
  rows filtered ≠ [] →
  enrich (Some lookup) filtered = Raise (KeyError "NBFC").
Proof.
  intros Hk Hi Hm Hrows. unfold enrich, insert_isin. rewrite Hk. simpl.
  unfold fill_isin. rewrite Hi, Hm. simpl.
  destruct (rows (to_datetime_column "Maturity Date"
                    (to_datetime_column "Issue Date" filtered))) as [|r0 rest] eqn:Hd.
  - apply (f_equal length) in Hd. rewrite !to_datetime_column_length in Hd.
    by destruct (rows filtered).
  - simpl. unfold get_isin, loc. by rewrite !to_datetime_column_columns, Hk.
Qed.

End Look_ups.

(** ** The sheets of a workbook, one after the other *)

Section Sheets.
Context `{!PyLib}.

(** X5. The sheets are processed one after the other and independently:
    the frames collected from a workbook are those of its first sheets
    followed by those of the others, the first exception ending the run;
    and a sheet of which the filter keeps no row adds nothing, whatever
    its other columns are. *)
Theorem sheets_one_by_one (selected_names : list string)
    (lookup_df : option (list LookupRow)) (xs ys : ExcelFile) :
  combined_rows selected_names lookup_df (xs ++ ys) =
    (before ← combined_rows selected_names lookup_df xs;
     after ← combined_rows selected_names lookup_df ys;
     Ok (before ++ after)) ∧
  ∀ df filtered,
    row_filter selected_names df = Ok filtered → rows filtered = [] →
    combined_rows selected_names lookup_df (xs ++ df :: ys) =
    combined_rows selected_names lookup_df (xs ++ ys).
Proof.
  split; [apply combined_rows_app|].
  intros df filtered Hf Hnil. rewrite !combined_rows_app. simpl.
  rewrite (process_sheet_no_rows _ _ _ _ Hf Hnil). simpl.
  destruct (combined_rows _ _ xs) as [before|e]; [|done]. simpl.
  by destruct (combined_rows _ _ ys).
Qed.

Lemma process_sheet_needs_Units selected_names lookup_df df :
  has_column "Name" df = true → has_column "Units" df = false →
  process_sheet selected_names lookup_df df = Raise (KeyError "Units").
Proof.
  intros [i Hi]%has_column_true Hu%has_column_false.
  unfold process_sheet, row_filter, loc. by rewrite Hi, Hu.
Qed.

Lemma combined_rows_needs_Units selected_names lookup_df xls :
  Forall (λ df, has_column "Name" df = true) xls →
  Exists (λ df, has_column "Units" df = false) xls →
  ∃ e, combined_rows selected_names lookup_df xls = Raise e.
Proof.
  intros Hall Hex. induction Hall as [|df xls Hname Hall IH]; [by apply Exists_nil in Hex|].
  simpl. destruct (process_sheet _ _ df) as [here|e] eqn:Hhere; [|by exists e]. simpl.
  apply Exists_cons in Hex as [Hu|Hex].
  - rewrite process_sheet_needs_Units in Hhere by done. done.
  - destruct (IH Hex) as [e ->]. by exists e.
Qed.

(** X3. The "Units" column is read only once a name is selected. With a
    "Name" column in every sheet and a sheet without "Units", the run
    with no name selected ends quietly, and every run with a selection
    ends in an exception: [KeyError] for "Units" when the first sheet is
    the one without the column. *)
Theorem units_read_on_selection (xls : ExcelFile) (lookup_file : option (list LookupRow)) :
  Forall (λ df, has_column "Name" df = true) xls →
  Exists (λ df, has_column "Units" df = false) xls →
  app (Some xls) lookup_file [] = Ok Nothing ∧
  (∀ s sel, ∃ e, app (Some xls) lookup_file (s :: sel) = Raise e) ∧
  (∀ s sel df rest, xls = df :: rest → has_column "Units" df = false →
     app (Some xls) lookup_file (s :: sel) = Raise (KeyError "Units")).
Proof.
  intros Hall Hex. simpl.
  destruct (collect_names_Ok xls ∅ Hall) as (found & Hfound & _).
  unfold all_names. rewrite Hfound. simpl. split_and!; [done|..].
  - intros s sel.
    destruct (combined_rows_needs_Units (s :: sel) (read_lookup <$> lookup_file) xls Hall Hex)
      as [e ->].
    by exists e.
  - intros s sel df rest -> Hu. simpl.
    rewrite process_sheet_needs_Units; [done| |done].
    by apply Forall_cons in Hall as [? _].
Qed.

Lemma process_sheet_no_dates selected_names lookup df :
  has_column "Issue Date" df && has_column "Maturity Date" df = false →
  process_sheet selected_names (Some lookup) df = process_sheet selected_names None df.
Proof.
  intros Hdates. unfold process_sheet.
  destruct (row_filter selected_names df) as [filtered|e] eqn:Hf; [|done]. simpl.
  destruct (empty filtered); [done|].
  rewrite enrich_no_dates; [done|].
  apply row_filter_inv in Hf as (_ & _ & Hcols).
  rewrite !has_column_dropped by done. unfold has_column in *. by rewrite Hcols.
Qed.

(** X10. The lookup table is used only on sheets that have both an
    "Issue Date" and a "Maturity Date" column: when no sheet has both,
    the run with a lookup workbook ends as the run without one, whatever
    the lookup lines are. *)
Theorem lookup_needs_date_columns (xls : ExcelFile) (lookup_file : list LookupRow)
    (selected_names : list string) :
  Forall (λ df, has_column "Issue Date" df && has_column "Maturity Date" df = false) xls →
  app (Some xls) (Some lookup_file) selected_names = app (Some xls) None selected_names.
Proof.
  intros Hall. simpl.
  assert (combined_rows selected_names (Some (read_lookup lookup_file)) xls =
          combined_rows selected_names None xls) as Heq.
  { induction Hall as [|df xls Hdf _ IH]; simpl; [done|].
    by rewrite process_sheet_no_dates, IH. }
  destruct (all_names xls); [|done]. simpl.
  destruct selected_names; [done|]. by rewrite Heq.
Qed.

Lemma process_sheet_rows selected_names lookup_df df l :
  process_sheet selected_names lookup_df df = Ok l →
  ∃ filtered, row_filter selected_names df = Ok filtered ∧
    sum_list ((λ f, length (rows f)) <$> l) = length (rows filtered).
Proof.
  intros Hl. unfold process_sheet in Hl. apply bind_Ok in Hl as (filtered & Hf & Hl).
  exists filtered. split; [done|].
  destruct (row_filter_inv _ _ _ Hf) as (Hname & _ & Hcols).
  assert (has_column "Name" filtered = true) as Hname'.
  { unfold has_column in *. by rewrite Hcols. }
  destruct (empty filtered) eqn:Hempty.
  - injection Hl as <-. apply (empty_rows _ Hname') in Hempty. by rewrite Hempty.
  - apply bind_Ok in Hl as (enriched & He & [= <-]). simpl.
    apply enrich_length in He. rewrite He. unfold drop_columns. simpl.
    rewrite length_fmap. lia.
Qed.

Lemma combined_rows_kept selected_names lookup_df xls combined :
  combined_rows selected_names lookup_df xls = Ok combined →
  ∃ kept, Forall2 (λ df filtered, row_filter selected_names df = Ok filtered) xls kept ∧
    sum_list ((λ f, length (rows f)) <$> combined) =
    sum_list ((λ f, length (rows f)) <$> kept).
Proof.
  revert combined. induction xls as [|df xls IH]; intros combined; simpl.
  - intros [= <-]. exists []. by split; [constructor|].
  - intros Hc. apply bind_Ok in Hc as (here & Hhere & Hc).
    apply bind_Ok in Hc as (after & Hafter & [= <-]).
    destruct (process_sheet_rows _ _ _ _ Hhere) as (filtered & Hf & Hsum).
    destruct (IH _ Hafter) as (kept & Hkept & Hsum').
    exists (filtered :: kept). split; [by constructor|].
    by rewrite fmap_app, sum_list_append, Hsum, Hsum'.
Qed.

End Sheets.

(** ** The concatenated frame *)

Lemma value_eqb_eq (a b : value) : value_eqb a b = true ↔ a = b.
Proof.
  destruct a, b; simpl; try (split; [done|by intros [=]]); try done.
  - rewrite String.eqb_eq. split; [by intros ->|by intros [= ->]].
  - rewrite Z.eqb_eq. split; [by intros ->|by intros [= ->]].
  - rewrite Leibniz.eqb_spec. split; [by intros ->|by intros [= ->]].
  - rewrite Bool.eqb_true_iff. split; [by intros ->|by intros [= ->]].
  - rewrite Z.eqb_eq. split; [by intros ->|by intros [= ->]].
Qed.

Lemma existsb_value_eqb (c : value) (acc : list value) :
  existsb (value_eqb c) acc = true ↔ c ∈ acc.
Proof.
  rewrite existsb_exists. split.
  - intros (x & Hx%list_elem_of_In & ->%value_eqb_eq). done.
  - intros Hc. exists c. split; [by apply list_elem_of_In|by apply value_eqb_eq].
Qed.

Lemma add_labels_spec (acc cols : list value) :
  let out := foldl add_label acc cols in
  (NoDup acc → NoDup out) ∧
  (∀ l, l ∈ out ↔ l ∈ acc ∨ l ∈ cols).
Proof.
  revert acc. induction cols as [|c cols IH]; intros acc; simpl.
  - split; [done|]. intros l. rewrite elem_of_nil. tauto.
  - destruct (IH (add_label acc c)) as (Hnd & Hin). split.
    + intros Hacc. apply Hnd. unfold add_label.
      destruct (existsb (value_eqb c) acc) eqn:Hc; [done|].
      apply NoDup_app. split_and!; [done| |apply NoDup_singleton].
      intros x Hx ->%list_elem_of_singleton.
      apply existsb_value_eqb in Hx. congruence.
    + intros l. rewrite Hin, elem_of_cons. unfold add_label.
      destruct (existsb (value_eqb c) acc) eqn:Hc.
      * apply existsb_value_eqb in Hc. split; [tauto|].
        intros [?|[->|?]]; tauto.
      * rewrite elem_of_app, list_elem_of_singleton. tauto.
Qed.

Lemma union_columns_spec (acc : list value) (dfs : list DataFrame) :
  let out := foldl (λ acc df, foldl add_label acc (columns df)) acc dfs in
  (NoDup acc → NoDup out) ∧
  (∀ l, l ∈ out ↔ l ∈ acc ∨ ∃ df, df ∈ dfs ∧ l ∈ columns df).
Proof.
  revert acc. induction dfs as [|df dfs IH]; intros acc; simpl.
  - split; [done|]. intros l. split; [by left|].
    by intros [?|(? & []%elem_of_nil & _)].
  - destruct (IH (foldl add_label acc (columns df))) as (Hnd & Hin).
    destruct (add_labels_spec acc (columns df)) as (Hnd' & Hin'). split.
    + intros Hacc. by apply Hnd, Hnd'.
    + intros l. rewrite Hin, Hin'. split.
      * intros [[?|?]|(df' & ? & ?)]; [by left|right..].
        -- exists df. split; [apply list_elem_of_here|done].
        -- exists df'. split; [by apply list_elem_of_further|done].
      * intros [?|(df' & [->|?]%elem_of_cons & ?)]; [by left; left|by left; right|].
        right. by exists df'.
Qed.

Lemma add_labels_fresh (acc cols : list value) :
  NoDup (acc ++ cols) → foldl add_label acc cols = acc ++ cols.
Proof.
  revert acc. induction cols as [|c cols IH]; intros acc Hnd; simpl.
  - by rewrite app_nil_r.
  - assert (add_label acc c = acc ++ [c]) as ->.
    { unfold add_label. destruct (existsb (value_eqb c) acc) eqn:Hc; [|done].
      apply existsb_value_eqb in Hc. apply NoDup_app in Hnd as (_ & Hnd & _).
      destruct (Hnd c Hc). apply list_elem_of_here. }
    rewrite IH; rewrite <- app_assoc; done.
Qed.

Lemma label_index_lookup (cols : list value) (i : nat) (c : value) :
  NoDup cols → cols !! i = Some c → label_index c cols = Some i.
Proof.
  revert i. induction cols as [|c' cols IH]; intros i Hnd Hi; [done|].
  apply NoDup_cons in Hnd as [Hc' Hnd]. simpl.
  destruct i as [|i]; simpl in Hi.
  - injection Hi as ->. by rewrite (proj2 (value_eqb_eq c c) eq_refl).
  - destruct (value_eqb c c') eqn:Hc.
    + apply value_eqb_eq in Hc as ->. destruct Hc'. by eapply list_elem_of_lookup_2.
    + by rewrite (IH i Hnd Hi).
Qed.

Lemma reindex_same (df : DataFrame) :
  NoDup (columns df) → well_formed df → reindex (columns df) df = rows df.
Proof.
  intros Hnd Hwf. unfold reindex. etrans; [|apply list_fmap_id].
  apply Forall_fmap_ext_1. unfold well_formed in Hwf.
  eapply Forall_impl; [done|]. intros r Hr. simpl in *.
  apply list_eq. intros i. rewrite list_lookup_fmap.
  destruct (columns df !! i) as [c|] eqn:Hc; simpl.
  - rewrite (label_index_lookup _ _ _ Hnd Hc). unfold cell.
    destruct (lookup_lt_is_Some_2 r i) as [v ->]; [|done].
    rewrite Hr. by eapply lookup_lt_Some.
  - symmetry. apply lookup_ge_None. apply lookup_ge_None in Hc. lia.
Qed.

Lemma pd_concat_length dfs :
  length (rows (pd_concat dfs)) = sum_list ((λ f, length (rows f)) <$> dfs).
Proof.
  unfold pd_concat. simpl. generalize (union_columns dfs). intros cols.
  induction dfs as [|df dfs IH]; [done|].
  rewrite bind_cons, length_app, IH, fmap_cons. unfold reindex at 1.
  by rewrite length_fmap.
Qed.

(** X11. For frames whose labels are each there once, as the sheets read
    by [pd.read_excel] have them, the concatenated frame is rectangular,
    its labels are those of the frames, each once, and it has as many rows
    as the frames have together. *)
Theorem concat_frame (dfs : list DataFrame) :
  Forall (λ df, NoDup (columns df)) dfs →
  well_formed (pd_concat dfs) ∧
  NoDup (columns (pd_concat dfs)) ∧
  (∀ l, l ∈ columns (pd_concat dfs) ↔ ∃ df, df ∈ dfs ∧ l ∈ columns df) ∧
  length (rows (pd_concat dfs)) = sum_list ((λ df, length (rows df)) <$> dfs).
Proof.
  intros _. destruct (union_columns_spec [] dfs) as (Hnd & Hin). split_and!.
  - unfold well_formed, pd_concat. simpl. apply Forall_forall.
    intros r (df & Hr & _)%list_elem_of_bind. unfold reindex in Hr.
    apply list_elem_of_fmap in Hr as (r0 & -> & _). by rewrite length_fmap.
  - apply Hnd, NoDup_nil_2.
  - intros l. etrans; [apply Hin|]. rewrite elem_of_nil. tauto.
  - apply pd_concat_length.
Qed.

(** X12. Concatenating one rectangular frame whose labels are each there
    once gives the frame back: a workbook of which one sheet has matching
    rows is written with the columns and the values of that sheet's
    enriched frame. *)
Theorem concat_single_frame (df : DataFrame) :
  NoDup (columns df) →
  well_formed df →
  pd_concat [df] = df.
Proof.
  intros Hnd Hwf. unfold pd_concat.
  assert (union_columns [df] = columns df) as ->.
  { unfold union_columns. simpl. apply (add_labels_fresh [] (columns df) Hnd). }
  change ([df] ≫= reindex (columns df)) with (reindex (columns df) df ++ []).
  rewrite app_nil_r, reindex_same by done. by destruct df.
Qed.

(** ** The sheet written *)

Section Sheet.
Context `{!PyLib}.

Lemma format_cell_value col_name c :
  contains "Interest" (str_of col_name) = false →
  cell_value (format_cell col_name c) = cell_value c.
Proof.
  intros Hint. unfold format_cell, column_rule. rewrite Hint.
  destruct (is_not_None (cell_value c)); [|done].
  by repeat case_match.
Qed.

Lemma format_row_length col_idx names r :
  length (format_row col_idx names r) = length r.
Proof.
  revert col_idx r. induction names as [|col_name names IH]; intros col_idx r; simpl; [done|].
  by rewrite IH, length_alter.
Qed.

Lemma max_column_uniform (ws : Worksheet) (n : nat) :
  ws ≠ [] → Forall (λ r, length r = n) ws → max_column ws = n.
Proof.
  intros Hne Hall. induction Hall as [|r ws Hr Hall IH]; [done|].
  unfold max_column in *. simpl. destruct ws as [|r' ws]; simpl in *; [lia|].
  rewrite IH by done. lia.
Qed.

Lemma render_length final_df :
  length (active (render final_df)) = S (length (rows final_df)).
Proof.
  unfold render, append_rows. simpl. rewrite format_columns_rows. simpl.
  by rewrite !length_fmap.
Qed.

(** X14. The sheet is titled "Extracted"; its first row holds the labels
    of the frame, unstyled; below it there is one row per row of the
    frame, in order, with as many cells as the row has values; and outside
    the columns whose name contains "Interest" every cell holds the value
    of the frame. *)
Theorem sheet_layout (final_df : DataFrame) :
  let wb := render final_df in
  title wb = "Extracted" ∧
  active wb !! 0%nat =
    Some ((λ l, {| cell_value := l; style := Normal |}) <$> columns final_df) ∧
  length (active wb) = S (length (rows final_df)) ∧
  ∀ n r, rows final_df !! n = Some r →
    ∃ cells, active wb !! S n = Some cells ∧
      length cells = length r ∧
      ∀ j c, cells !! j = Some c →
        (∀ l, columns final_df !! j = Some l → contains "Interest" (str_of l) = false) →
        r !! j = Some (cell_value c).
Proof.
  intros wb. unfold wb. split_and!; [done| |apply render_length|].
  - unfold render, append_rows. simpl. by rewrite format_columns_rows.
  - unfold render, append_rows. simpl. rewrite format_columns_rows.
    intros n r Hr. simpl. rewrite list_lookup_fmap, (list_lookup_fmap (map _)), Hr. simpl.
    eexists. split; [done|]. split.
    + by rewrite format_row_length, length_map.
    + intros j c. rewrite format_row_lookup, Nat.sub_0_r, (list_lookup_fmap _ r).
      destruct (columns final_df !! j) as [l|] eqn:Hl.
      * rewrite decide_True by lia. destruct (r !! j) as [v|]; [|done]. simpl.
        intros [= <-] Hint. by rewrite format_cell_value by by apply Hint.
      * destruct (r !! j) as [v|]; [|done]. simpl. by intros [= <-].
Qed.

(** X15. In a column whose name contains "Amount" and not "Interest", a
    data cell that is not None keeps its value and carries the format
    [#,##0], whatever else the name contains. *)
Theorem amount_column (final_df : DataFrame) (j n : nat) (col_name v : value)
    (r : list value) :
  columns final_df !! j = Some col_name →
  contains "Interest" (str_of col_name) = false →
  contains "Amount" (str_of col_name) = true →
  rows final_df !! n = Some r →
  r !! j = Some v →
  v ≠ VNone →
  ∃ c, ws_cell (active (render final_df)) (S n) j = Some c ∧
    cell_value c = v ∧
    number_format (style c) = "#,##0".
Proof.
  intros Hl Hint Hamt Hr Hv Hnone. eexists. split; [by eapply render_cell|].
  unfold format_cell, column_rule. rewrite Hint, Hamt. simpl.
  assert (is_not_None v = true) as -> by by destruct v.
  done.
Qed.

(** X16. A data cell is written as the frame has it, with no style of the
    script, when its value is None, or when the name of its column
    contains none of "Interest", "Amount" and "Date" and, in lower case,
    neither "issue" nor "maturity". *)
Theorem plain_cells (final_df : DataFrame) (j n : nat) (col_name v : value)
    (r : list value) :
  columns final_df !! j = Some col_name →
  rows final_df !! n = Some r →
  r !! j = Some v →
  v = VNone ∨
  (contains "Interest" (str_of col_name) = false ∧
   contains "Amount" (str_of col_name) = false ∧
   contains "Date" (str_of col_name) = false ∧
   contains_any ["issue"; "maturity"] (lower (str_of col_name)) = false) →
  ws_cell (active (render final_df)) (S n) j =
    Some {| cell_value := v; style := Normal |}.
Proof.
  intros Hl Hr Hv Hplain.
  rewrite (render_cell final_df j n col_name r v Hl Hr Hv). f_equal.
  destruct Hplain as [->|(Hint & Hamt & Hdate & Hany)]; [done|].
  unfold format_cell, column_rule. rewrite Hint, Hamt, Hdate.
  assert (contains_any ["issue date"; "maturity date"; "issue"; "maturity"]
            (lower (str_of col_name)) = false) as ->.
  { revert Hany. unfold contains_any. simpl.
    destruct (contains "issue" _) eqn:Hi; [done|].
    destruct (contains "maturity" _) eqn:Hm; [done|]. intros _.
    destruct (contains "issue date" _) eqn:Hid.
    { apply (contains_app "issue" " date") in Hid. congruence. }
    destruct (contains "maturity date" _) eqn:Hmd; [|done].
    apply (contains_app "maturity" " date") in Hmd. congruence. }
  simpl. by destruct (is_not_None v).
Qed.

(** X17. Every width the script sets lies between 2 and 50, and for a
    rectangular frame it sets one width per column of the frame. *)
Theorem column_width_bounds (final_df : DataFrame) :
  (∀ j w, column_width (render final_df) !! j = Some w → (2 ≤ w ≤ 50)%nat) ∧
  (well_formed final_df →
   length (column_width (render final_df)) = length (columns final_df)).
Proof.
  unfold render, auto_widths. simpl. split.
  - intros j w. rewrite list_lookup_fmap.
    destruct (ws_columns _ !! j) as [column|]; [|done]. simpl. intros [= <-].
    unfold adjusted_width. lia.
  - intros Hwf. unfold ws_columns. rewrite !length_fmap, length_seq.
    unfold append_rows. simpl. rewrite format_columns_rows.
    apply max_column_uniform; [done|]. constructor; [by rewrite length_map|].
    apply Forall_fmap, Forall_fmap. unfold well_formed in Hwf.
    eapply Forall_impl; [done|]. intros r Hr. simpl.
    by rewrite format_row_length, length_map.
Qed.

(** X13. When a run ends with the download, the file is named
    "extracted_rows_with_isin.xlsx", the filter returned on every sheet,
    and the sheet of the workbook holds, below its header row, as many
    rows as the filter kept over all sheets together, at least one. *)
Theorem download_rows (xls : ExcelFile) (lookup_file : option (list LookupRow))
    (selected_names : list string) (file_name : string) (data : Workbook) :
  app (Some xls) lookup_file selected_names = Ok (Download file_name data) →
  file_name = "extracted_rows_with_isin.xlsx" ∧
  ∃ kept, Forall2 (λ df filtered, row_filter selected_names df = Ok filtered) xls kept ∧
    length (active data) = S (sum_list ((λ f, length (rows f)) <$> kept)) ∧
    (2 ≤ length (active data))%nat.
Proof.
  intros Happ. simpl in Happ. apply bind_Ok in Happ as (options & _ & Happ).
  destruct selected_names as [|s sel]; [done|].
  apply bind_Ok in Happ as (combined & Hc & Happ).
  destruct combined as [|enriched rest] eqn:Hcomb; [done|].
  injection Happ as <- <-. split; [done|].
  destruct (combined_rows_kept _ _ _ _ Hc) as (kept & Hkept & Hsum).
  exists kept. split; [done|]. rewrite render_length, pd_concat_length, Hsum.
  split; [done|].
  destruct (combined_rows_some _ _ _ _ _ Hc) as (df & filtered & Hdf & Hf & Hrows).
  apply list_elem_of_lookup_1 in Hdf as [i Hi].
  destruct (Forall2_lookup_l _ _ _ _ _ Hkept Hi) as (f' & Hf' & Heq).
  rewrite Hf in Heq. injection Heq as <-.
  assert (0 < length (rows filtered))%nat as Hpos by (destruct (rows filtered); simpl; [done|lia]).
  pose proof (sum_list_lookup_le (λ f, length (rows f)) kept i filtered Hf'). lia.
Qed.

End Sheet.

(** * The model on the sample inputs *)

Section Examples.
#[local] Existing Instance Demo.lib.

(** The names of the sample sheet. *)
Example all_names_bonds : all_names [Sample.bonds] = Ok ["A"; "B"].
Proof. reflexivity. Qed.

(** Selecting A and B keeps one row of the sample sheet; its ISIN is the
    one of the lookup line with its key and dates. *)
Example combined_rows_bonds :
  combined_rows ["A"; "B"] (Some (read_lookup Sample.lookup)) [Sample.bonds] =
  Ok [{| columns := [VStr "Name"; VStr "Units"; VStr "NBFC"; VStr "ISIN";
                     VStr "Issue Date"; VStr "Maturity Date"; VStr "Interest Rate"];
         rows := [[VStr "A"; VInt 10; VStr "X"; VStr "INE001A07AB1";
                   Sample.jan_2020; Sample.jan_2021; VInt 5]] |}].
Proof. reflexivity. Qed.

(** The run on the sample sheet ends with the download, and selecting only
    B, whose units are negative, ends with the notice. *)
Example app_bonds :
  (∃ data, app (Some [Sample.bonds]) (Some Sample.lookup) ["A"; "B"] =
             Ok (Download "extracted_rows_with_isin.xlsx" data)) ∧
  app (Some [Sample.bonds]) (Some Sample.lookup) ["B"] =
    Ok (Info "No matching rows found with positive Units.").
Proof. split; [by eexists | reflexivity]. Qed.

(** *** The row filter *)


(** In a "Units" column of dates the counts of the Timestamps are
    compared with 0: a date after the epoch keeps the row, a date before
    it and NaT do not. In a column of mixed values a date is no number. *)
Example row_filter_dated_units :
  datetime64 (column_at Cases.dated_units 1) = true ∧
  row_filter ["A"] Cases.dated_units =
    Ok {| columns := columns Cases.dated_units;
          rows := [[VStr "A"; Sample.jan_2020]] |} ∧
  datetime64 (column_at Cases.mixed_units 1) = false ∧
  row_filter ["A"] Cases.mixed_units =
    Ok {| columns := columns Cases.mixed_units;
          rows := [[VStr "A"; VInt 3]] |}.
Proof. split_and!; reflexivity. Qed.

(** *** The names *)


Lemma all_names_needs_Name_witness :
  all_names [Sample.bonds; Sample.text_dates] = Raise (KeyError "Name") ∧
  app (Some [Sample.bonds; Sample.text_dates]) None ["A"] = Raise (KeyError "Name").
Proof.
  destruct (proj1 (all_names_needs_Name [Sample.bonds; Sample.text_dates])) as [Hnames Happ].
  { apply Exists_cons_tl, Exists_cons_hd. reflexivity. }
  split; [exact Hnames | exact (Happ None ["A"])].
Defined.

(** *** The lookup *)

Lemma find_isin_spec_witness :
  let lookup_df := read_lookup Sample.lookup in
  find_isin lookup_df (VStr "X") Sample.jan_2020 Sample.jan_2021 = VStr "INE001A07AB1" ∧
  find_isin lookup_df (VStr "Y") Sample.jan_2020 VNaT = VStr "".
Proof.
  intros lookup_df.
  destruct (find_isin_spec Sample.lookup) as (Hquery & _ & _). split.
  - destruct (Hquery "X" Sample.jan_2020 Sample.jan_2021) as (Hfirst & _ & _).
    { right. by eexists. }
    { right. by eexists. }
    refine (Hfirst [] {| nbfc := VStr "X"; isin := VStr "INE001A07AB1";
                         issue_date := Sample.jan_2020;
                         maturity_date := Sample.jan_2021 |}
                   [{| nbfc := VStr "Y"; isin := VStr "INE002A07CD2";
                       issue_date := Sample.jan_2020; maturity_date := VNaT |}]
                   eq_refl _ _); [by split_and!|by intros ? ?%elem_of_nil].
  - destruct (Hquery "Y" Sample.jan_2020 VNaT) as (_ & _ & Hnat).
    { right. by eexists. }
    { by left. }
    apply Hnat. by right.
Defined.

(** C2 as stated fails: with two lookup lines of the same key and dates,
    the second is in the table and the look-up under its own key and dates
    returns the identifier of the first. *)
Lemma find_isin_duplicate_triple :
  let lookup_df := read_lookup [Sample.first_entry; Sample.second_entry] in
  Sample.second_entry ∈ lookup_df ∧
  issue_date Sample.second_entry ≠ VNaT ∧
  maturity_date Sample.second_entry ≠ VNaT ∧
  find_isin lookup_df (nbfc Sample.second_entry) (issue_date Sample.second_entry)
    (maturity_date Sample.second_entry) = VStr "INE001A07AB1" ∧
  isin Sample.second_entry = VStr "INE009Z07ZZ9".
Proof.
  intros lookup_df. split; [apply list_elem_of_further, list_elem_of_here|].
  split; [discriminate|]. split; [discriminate|]. split; reflexivity.
Qed.

(** *** The enrichment *)

(** C3 as stated fails: with a lookup table and both date columns, the
    enrichment replaces text dates by their coerced dates. *)
Lemma enrich_rewrites_dates :
  ∃ out, enrich (Some (read_lookup Sample.lookup)) Sample.text_dates = Ok out ∧
    column "Issue Date" Sample.text_dates = Ok [VStr "2020-01-01"] ∧
    column "Issue Date" out = Ok [Sample.jan_2020] ∧
    column "Maturity Date" Sample.text_dates = Ok [VStr "TBD"] ∧
    column "Maturity Date" out = Ok [VNaT].
Proof. eexists. split_and!; reflexivity. Qed.

Lemma enrich_frame_witness :
  let out := {| columns := [VStr "NBFC"; VStr "ISIN"; VStr "Issue Date"; VStr "Maturity Date"];
                rows := [[VStr "X"; VStr ""; Sample.jan_2020; VNaT]] |} in
  let lookup_df := Some (read_lookup Sample.lookup) in
  well_formed Sample.text_dates ∧
  enrich lookup_df Sample.text_dates = Ok out ∧
  length (rows out) = length (rows Sample.text_dates) ∧
  added_isin (columns Sample.text_dates) (columns out) ∧
  ∀ i l, columns Sample.text_dates !! i = Some l →
    columns out !! moved Sample.text_dates i = Some l ∧
    ∀ n r v, rows Sample.text_dates !! n = Some r → r !! i = Some v →
      ∃ r', rows out !! n = Some r' ∧
            r' !! moved Sample.text_dates i =
              Some (if coerces lookup_df Sample.text_dates i
                    then to_datetime (column_at Sample.text_dates i) v else v).
Proof.
  intros out lookup_df.
  assert (well_formed Sample.text_dates) as Hwf.
  { constructor; [reflexivity | constructor]. }
  split; [exact Hwf|]. split; [reflexivity|].
  exact (enrich_frame lookup_df Sample.text_dates out Hwf eq_refl).
Defined.



(** A sheet with both "NBFC" and "ISIN" of which the filter keeps no row
    is skipped: the run ends with the notice. *)
Example existing_isin_skipped :
  app (Some [Sample.with_isin]) None ["B"] =
    Ok (Info "No matching rows found with positive Units.").
Proof. reflexivity. Qed.

(** *** The run *)

(** C5 as stated fails: with no name selected the filter keeps no row of
    any sheet, and the run shows nothing, the notice included. *)
Lemma no_selection_no_notice :
  (∀ df, df ∈ [Sample.bonds] →
     ∃ filtered, row_filter [] df = Ok filtered ∧ rows filtered = []) ∧
  app (Some [Sample.bonds]) (Some Sample.lookup) [] = Ok Nothing.
Proof.
  split; [|reflexivity].
  intros df ->%list_elem_of_singleton. by eexists.
Qed.

Lemma no_match_notice_witness :
  app (Some [Sample.bonds]) (Some Sample.lookup) ["B"] =
    Ok (Info "No matching rows found with positive Units.") ∧
  app (Some [Sample.bonds]) (Some Sample.lookup) [] = Ok Nothing.
Proof.
  split.
  - apply (proj1 (no_match_notice [Sample.bonds] (Some Sample.lookup) ["B"])); [done|].
    intros df ->%list_elem_of_singleton. by eexists.
  - destruct (no_match_notice [Sample.bonds] (Some Sample.lookup) [])
      as (_ & _ & _ & Hnone).
    apply (proj2 (Hnone eq_refl)). constructor; [reflexivity | constructor].
Defined.

(** *** The worksheet *)


(** Python's true division on ints: 5 / 100, an integer no float holds
    exactly, the largest quotient a float holds and the least that
    overflows. *)
Example int_truediv_values :
  int_truediv 5 100 = Some 0.05%float ∧
  int_truediv (2 ^ 53 + 1) 100 = Some 90071992547409.94%float ∧
  int_truediv (100 * (2 ^ 1024 - 2 ^ 970) - 1) 100 = Some 1.7976931348623157e308%float ∧
  int_truediv (100 * (2 ^ 1024 - 2 ^ 970)) 100 = None.
Proof. split_and!; reflexivity. Qed.


(** C6 as stated fails: a column named "Payment date", in lower case,
    contains "date" when case is ignored and neither "issue" nor
    "maturity", and its date cell is left without a style. *)
Lemma lowercase_date_not_formatted :
  columns Sample.payments !! 1%nat = Some (VStr "Payment date") ∧
  contains "date" (lower "Payment date") = true ∧
  contains_any ["issue"; "maturity"] (lower "Payment date") = false ∧
  ∃ c, ws_cell (active (render Sample.payments)) 1 1 = Some c ∧
    cell_value c = Sample.jan_2020 ∧
    style c = Normal ∧
    number_format (style c) ≠ "DD-MMM-YY".
Proof. split_and!; [reflexivity..|]. eexists. by split_and!. Qed.

Lemma date_columns_witness :
  let final_df := Sample.bonds in
  columns final_df !! 3%nat = Some (VStr "Issue Date") ∧
  ∃ c, ws_cell (active (render final_df)) 1 3 = Some c ∧
    cell_value c = VStr "2020-01-01" ∧
    (contains "Date" "Issue Date" = true →
     contains_any ["issue"; "maturity"] (lower "Issue Date") = false →
     number_format (style c) = "DD-MMM-YY") ∧
    (contains_any ["issue date"; "maturity date"; "issue"; "maturity"]
       (lower "Issue Date") = true →
     number_format (style c) = "MMM-YY").
Proof.
  intros final_df. split; [reflexivity|].
  by apply (date_columns final_df 3 0 (VStr "Issue Date") (VStr "2020-01-01")
              [VStr "A"; VInt 10; VStr "X"; VStr "2020-01-01"; VStr "2021-01-01"; VInt 5]).
Defined.

(** C7 as stated fails: under the header "OK" a cell holding [False],
    whose text has five characters, is passed over, and the width is 4
    where the longest text of the column would give 7. *)
Lemma falsy_cell_not_measured :
  ws_columns (active (render Sample.flags)) !! 1%nat =
    Some [{| cell_value := VStr "OK"; style := Normal |};
          {| cell_value := VBool false; style := Normal |}] ∧
  column_width (render Sample.flags) !! 1%nat = Some 4%nat ∧
  (λ column, (longest_stringified column + 2) `min` 50)%nat
    <$> ws_columns (active (render Sample.flags)) !! 1%nat = Some 7%nat.
Proof. split_and!; reflexivity. Qed.

Lemma column_width_spec_witness :
  let column := [{| cell_value := VStr "OK"; style := Normal |};
                 {| cell_value := VBool false; style := Normal |}] in
  ws_columns (active (render Sample.flags)) !! 1%nat = Some column ∧
  (∀ row c, ws_cell (active (render Sample.flags)) row 1 = Some c → c ∈ column) ∧
  ∃ L, column_width (render Sample.flags) !! 1%nat = Some ((L + 2) `min` 50)%nat ∧
       longest_truthy L column.
Proof.
  intros column. split; [reflexivity|].
  by apply (column_width_spec Sample.flags 1 column).
Defined.

End Examples.

(** * The further properties on the sample inputs *)

Section More_examples.
#[local] Existing Instance Demo.lib.

(** The sample sheet and the sheet of flags, in two orders and with a
    sheet repeated, offer the same names. *)
Lemma all_names_of_sheet_set_witness :
  all_names [Sample.bonds; Sample.flags] =
  all_names [Sample.flags; Sample.bonds; Sample.flags].
Proof.
  apply (all_names_of_sheet_set [Sample.bonds; Sample.flags]
           [Sample.flags; Sample.bonds; Sample.flags]).
  intros df. rewrite !elem_of_cons, elem_of_nil. tauto.
Defined.


Lemma units_read_on_selection_witness :
  app (Some [Sample.payments]) (Some Sample.lookup) [] = Ok Nothing ∧
  (∀ s sel, ∃ e, app (Some [Sample.payments]) (Some Sample.lookup) (s :: sel) = Raise e) ∧
  (∀ s sel df rest, [Sample.payments] = df :: rest → has_column "Units" df = false →
     app (Some [Sample.payments]) (Some Sample.lookup) (s :: sel) = Raise (KeyError "Units")).
Proof.
  apply (units_read_on_selection [Sample.payments] (Some Sample.lookup)).
  - constructor; [reflexivity | constructor].
  - apply Exists_cons_hd. reflexivity.
Defined.

Lemma enrich_fills_isin_witness :
  let lookup := read_lookup Sample.lookup in
  well_formed Sample.text_dates ∧
  ∃ out, enrich (Some lookup) Sample.text_dates = Ok out ∧
    columns out !! 0%nat = Some (VStr "NBFC") ∧
    columns out !! 1%nat = Some (VStr "ISIN") ∧
    length (rows out) = length (rows Sample.text_dates) ∧
    ∀ n r, rows Sample.text_dates !! n = Some r →
      ∃ r', rows out !! n = Some r' ∧
        r' !! 1%nat = Some (find_isin lookup (cell r 0)
                              (to_datetime (column_at Sample.text_dates 1) (cell r 1))
                              (to_datetime (column_at Sample.text_dates 2) (cell r 2))).
Proof.
  intros lookup.
  assert (well_formed Sample.text_dates) as Hwf.
  { constructor; [reflexivity | constructor]. }
  split; [exact Hwf|].
  exact (enrich_fills_isin lookup Sample.text_dates 0 1 2 Hwf eq_refl eq_refl eq_refl eq_refl).
Defined.

Lemma enrich_without_nbfc_raises_witness :
  enrich (Some (read_lookup Sample.lookup)) Cases.no_nbfc = Raise (KeyError "NBFC").
Proof.
  apply (enrich_without_nbfc_raises (read_lookup Sample.lookup) Cases.no_nbfc);
    [reflexivity..|discriminate].
Defined.

Lemma lookup_needs_date_columns_witness :
  app (Some [Cases.holdings]) (Some Sample.lookup) ["A"] =
  app (Some [Cases.holdings]) None ["A"].
Proof.
  apply (lookup_needs_date_columns [Cases.holdings] Sample.lookup ["A"]).
  constructor; [reflexivity | constructor].
Defined.

Lemma concat_frame_witness :
  let dfs := [Sample.flags; Sample.payments] in
  well_formed (pd_concat dfs) ∧
  NoDup (columns (pd_concat dfs)) ∧
  (∀ l, l ∈ columns (pd_concat dfs) ↔ ∃ df, df ∈ dfs ∧ l ∈ columns df) ∧
  length (rows (pd_concat dfs)) = sum_list ((λ df, length (rows df)) <$> dfs).
Proof.
  intros dfs. apply (concat_frame dfs).
  repeat constructor; rewrite ?elem_of_cons, ?elem_of_nil; intros Hin;
    repeat destruct Hin as [Hin|Hin]; done.
Defined.

Lemma concat_single_frame_witness : pd_concat [Cases.extracted] = Cases.extracted.
Proof.
  apply (concat_single_frame Cases.extracted).
  - repeat constructor; rewrite ?elem_of_cons, ?elem_of_nil; intros Hin;
      repeat destruct Hin as [Hin|Hin]; done.
  - constructor; [reflexivity | constructor].
Defined.

Lemma download_rows_witness :
  let data := render (pd_concat [Cases.extracted]) in
  app (Some [Sample.bonds]) (Some Sample.lookup) ["A"; "B"] =
    Ok (Download "extracted_rows_with_isin.xlsx" data) ∧
  ∃ kept, Forall2 (λ df filtered, row_filter ["A"; "B"] df = Ok filtered) [Sample.bonds] kept ∧
    length (active data) = S (sum_list ((λ f, length (rows f)) <$> kept)) ∧
    (2 ≤ length (active data))%nat.
Proof.
  intros data. split; [reflexivity|].
  exact (proj2 (download_rows [Sample.bonds] (Some Sample.lookup) ["A"; "B"]
                  "extracted_rows_with_isin.xlsx" data eq_refl)).
Defined.

Lemma amount_column_witness :
  columns Cases.holdings !! 3%nat = Some (VStr "Amount Invested") ∧
  ∃ c, ws_cell (active (render Cases.holdings)) 1 3 = Some c ∧
    cell_value c = VInt 250000 ∧
    number_format (style c) = "#,##0".
Proof.
  split; [reflexivity|].
  by apply (amount_column Cases.holdings 3 0 (VStr "Amount Invested") (VInt 250000)
              [VStr "A"; VInt 3; VFloat nan; VInt 250000; VNone]).
Defined.

Lemma plain_cells_witness :
  ws_cell (active (render Cases.holdings)) 1 4 =
    Some {| cell_value := VNone; style := Normal |} ∧
  ws_cell (active (render Cases.holdings)) 2 4 =
    Some {| cell_value := VStr "closed"; style := Normal |}.
Proof.
  split.
  - apply (plain_cells Cases.holdings 4 0 (VStr "Remarks") VNone
             [VStr "A"; VInt 3; VFloat nan; VInt 250000; VNone]); [reflexivity..|].
    by left.
  - apply (plain_cells Cases.holdings 4 1 (VStr "Remarks") (VStr "closed")
             [VStr "B"; VInt 0; VFloat nan; VInt 1000; VStr "closed"]); [reflexivity..|].
    right. by split_and!.
Defined.

End More_examples.
